(** * NovaSynth-AI: the molecule viewer, the comparison engine and the
      model-response parser

    A shallow embedding of the logic-bearing TypeScript of the repository:

    - [InteractiveMoleculeViewer] (the component file with [getAtomColor],
      [MoleculeStructure3D] and [MoleculeStructure2D]);
    - [ComparisonEngine.handleCompare];
    - [geminiService.parseJSON].

    Conventions.  A JavaScript [number] is a real number ([R]): arithmetic is
    the exact one, rounding and the non-finite values are outside the model.
    Where rounding decides what the geometry normalizer does, the same code
    is also embedded over binary64 floats ([Normalizer64]).
    Atom ids and bond orders, which the data model declares integers, are in
    [Z].  A JavaScript string is its list of UTF-16 code units.  Code that can
    throw returns an [outcome]. *)

From Stdlib Require Import Reals Lra Lia List ZArith NArith Bool String Ascii.
From Stdlib Require Floats.
Import ListNotations.
Set Warnings "-register-all,-inexact-float".

(* ================================================================== *)
(** * JavaScript values used by the components *)
(* ================================================================== *)

Module JS.

(** A string is the list of its UTF-16 code units. *)
Definition jsstring : Type := list N.

(** Literals are written as Rocq strings and read as one code unit per
    character (all literals of the source are ASCII). *)
Definition js (s : string) : jsstring :=
  map N_of_ascii (list_ascii_of_string s).

(** U+0022, the double quote of the template strings. *)
Definition dquote : jsstring := [34%N].

Fixpoint str_eqb (a b : jsstring) : bool :=
  match a, b with
  | [], [] => true
  | x :: a', y :: b' => N.eqb x y && str_eqb a' b'
  | _, _ => false
  end.

(** [s.startsWith(p)] *)
Fixpoint startsWith (p s : jsstring) : bool :=
  match p, s with
  | [], _ => true
  | x :: p', y :: s' => N.eqb x y && startsWith p' s'
  | _ :: _, [] => false
  end.

(** [s.includes(p)] *)
Fixpoint includes (p s : jsstring) : bool :=
  startsWith p s ||
  match s with
  | [] => false
  | _ :: s' => includes p s'
  end.

(** The code units [String.prototype.trim] removes: ECMAScript WhiteSpace
    (TAB, VT, FF, SP, NBSP, ZWNBSP and the Unicode space separators) and
    LineTerminator (LF, CR, LS, PS). *)
Definition isWhiteSpace (c : N) : bool :=
  (N.leb 9 c && N.leb c 13) || N.eqb c 32 || N.eqb c 160 || N.eqb c 5760
  || (N.leb 8192 c && N.leb c 8202) || N.eqb c 8232 || N.eqb c 8233
  || N.eqb c 8239 || N.eqb c 8287 || N.eqb c 12288 || N.eqb c 65279.

Fixpoint trimStart (s : jsstring) : jsstring :=
  match s with
  | [] => []
  | c :: s' => if isWhiteSpace c then trimStart s' else s
  end.

Definition trimEnd (s : jsstring) : jsstring := rev (trimStart (rev s)).

(** [s.trim()] *)
Definition trim (s : jsstring) : jsstring := trimEnd (trimStart s).

(** [s.replace(/p/g, '')] for a literal, non-empty pattern [p]: one pass
    from the left, every match deleted, the scan resuming after the match.
    [skip] counts the code units of the current match still to drop. *)
Fixpoint removeAllFrom (p : jsstring) (skip : nat) (s : jsstring) : jsstring :=
  match s with
  | [] => []
  | c :: s' =>
      match skip with
      | S k => removeAllFrom p k s'
      | O => if startsWith p s
             then removeAllFrom p (pred (List.length p)) s'
             else c :: removeAllFrom p O s'
      end
  end.

Definition removeAll (p s : jsstring) : jsstring := removeAllFrom p O s.

(** [c.toUpperCase()] for a one-code-unit string.  Exact on ASCII, on U+0131
    and U+017F (whose upper cases are [I] and [S]) and on U+00DF.  The upper
    case of any other code unit either holds a non-ASCII unit or is one of
    [FF], [FI], [FL], [FFI], [FFL], [ST] (the ligatures), so it starts no key
    of the tables read below: such a unit is left as it is, which no lookup
    can tell apart. *)
Definition toUpperCase1 (c : N) : jsstring :=
  if N.leb 97 c && N.leb c 122 then [(c - 32)%N]
  else if N.eqb c 305 then [73%N]
  else if N.eqb c 383 then [83%N]
  else if N.eqb c 223 then [83%N; 83%N]
  else [c].

(** [el.charAt(0).toUpperCase() + el.slice(1)] *)
Definition capitalizeFirst (el : jsstring) : jsstring :=
  match el with
  | [] => []
  | c :: rest => toUpperCase1 c ++ rest
  end.

(** An [Error] object: its [name] and its [message]. *)
Record JsError : Type := mkError { err_name : jsstring; err_message : jsstring }.

(** The result of running code that may throw. *)
Inductive outcome (A : Type) : Type :=
| Returns (a : A)
| Throws (e : JsError).
Arguments Returns {A} a.
Arguments Throws {A} e.

Definition bind {A B} (m : outcome A) (k : A -> outcome B) : outcome B :=
  match m with
  | Returns a => k a
  | Throws e => Throws e
  end.

(** [try { body } catch (e) { handler(e) }] *)
Definition try_catch {A} (body : outcome A) (handler : JsError -> outcome A)
  : outcome A :=
  match body with
  | Returns a => Returns a
  | Throws e => handler e
  end.

(** The [TypeError] of reading property [k] of [null] or [undefined]
    (the message text is the engine's; V8's is used). *)
Definition TypeError_read (what k : jsstring) : JsError :=
  mkError (js "TypeError")
    (js "Cannot read properties of " ++ what ++ js " (reading '" ++ k ++ js "')").

(** The values [JSON.parse] produces.  An object is the list of its
    properties, most recent first. *)
Inductive json : Type :=
| JNull
| JBool (b : bool)
| JNumber (r : R)
| JString (s : jsstring)
| JArray (l : list json)
| JObject (fields : list (jsstring * json)).

(** [{}] *)
Definition empty_object : json := JObject [].

Fixpoint assoc {V} (k : jsstring) (l : list (jsstring * V)) : option V :=
  match l with
  | [] => None
  | (k', v) :: l' => if str_eqb k k' then Some v else assoc k l'
  end.

(** ToBoolean; [None] is [undefined]. *)
Definition truthy (v : option json) : bool :=
  match v with
  | None => false
  | Some JNull => false
  | Some (JBool b) => b
  | Some (JNumber r) => if Req_dec_T r 0 then false else true
  | Some (JString s) => negb (str_eqb s [])
  | Some (JArray _) => true
  | Some (JObject _) => true
  end.

(** [v.k] for one of the keys the components read ([mol1Valid],
    [mol2Valid], [molecule1], [molecule2]): a property of an object,
    [undefined] on the other values, a [TypeError] on [null]. *)
Definition getProp (v : json) (k : jsstring) : outcome (option json) :=
  match v with
  | JNull => Throws (TypeError_read (js "null") k)
  | JObject fields => Returns (assoc k fields)
  | _ => Returns None
  end.

End JS.
Import JS.

Declare Scope js_scope.
Notation "x <- m ;; k" := (JS.bind m (fun x => k))
  (at level 61, m at next level, right associativity) : js_scope.

Open Scope R_scope.

(* ================================================================== *)
(** * The data model ([types.ts]) *)
(* ================================================================== *)

Abbreviation number := R.

Record Atom3D : Type := mkAtom3D {
  a3_element : jsstring;
  a3_x : number;
  a3_y : number;
  a3_z : number;
  a3_id : option Z
}.

(** [Bond3D] and [Bond2D] declare the same three fields. *)
Record Bond : Type := mkBond {
  from : Z;
  to : Z;
  order : Z
}.
Definition Bond3D : Type := Bond.
Definition Bond2D : Type := Bond.

Record Atom2D : Type := mkAtom2D {
  a2_id : Z;
  a2_element : jsstring;
  a2_x : number;
  a2_y : number
}.

Record Structure2D : Type := mkStructure2D {
  atoms2 : list Atom2D;
  bonds2 : list Bond2D
}.

Record MoleculeStructure : Type := mkMoleculeStructure {
  smiles : jsstring;
  inchi : option jsstring;
  verificationNote : option jsstring;
  atoms : list Atom3D;
  bonds : list Bond3D;
  structure2D : option Structure2D
}.

(* ================================================================== *)
(** * Constants and helpers of the viewer *)
(* ================================================================== *)

(** What reading a property of a plain object literal can give: one of its
    own string values, or a member inherited from [Object.prototype]. *)
Inductive propval : Type :=
| Str (s : jsstring)
| Inherited (name : jsstring).

(** The CPK colouring table. *)
Definition ATOM_COLORS : list (jsstring * jsstring) :=
  [ (js "H", js "#FFFFFF"); (js "C", js "#909090"); (js "N", js "#3050F8");
    (js "O", js "#FF0D0D"); (js "F", js "#90E050"); (js "Cl", js "#1FF01F");
    (js "Br", js "#A62929"); (js "I", js "#940094"); (js "P", js "#FF8000");
    (js "S", js "#FFFF30"); (js "B", js "#FFB5B5");
    (js "default", js "#DA70D6") ].

(** The property names every object literal inherits. *)
Definition Object_prototype_keys : list jsstring :=
  [ js "constructor"; js "__proto__"; js "hasOwnProperty"; js "isPrototypeOf";
    js "propertyIsEnumerable"; js "toLocaleString"; js "toString";
    js "valueOf"; js "__defineGetter__"; js "__defineSetter__";
    js "__lookupGetter__"; js "__lookupSetter__" ].

(** [ATOM_COLORS[k]]: [None] is [undefined]. *)
Definition ATOM_COLORS_get (k : jsstring) : option propval :=
  match assoc k ATOM_COLORS with
  | Some c => Some (Str c)
  | None => if existsb (str_eqb k) Object_prototype_keys
            then Some (Inherited k) else None
  end.

(** [a || b] on property reads: the first operand when it is truthy. *)
Definition or_else (a b : option propval) : option propval :=
  match a with
  | Some (Str []) => b
  | Some v => Some v
  | None => b
  end.

(** [ATOM_COLORS[el] || ATOM_COLORS[el.charAt(0).toUpperCase() + el.slice(1)]
     || ATOM_COLORS['default']] *)
Definition getAtomColor (el : jsstring) : option propval :=
  or_else (ATOM_COLORS_get el)
    (or_else (ATOM_COLORS_get (capitalizeFirst el))
       (ATOM_COLORS_get (js "default"))).

(** The neutral colour, [ATOM_COLORS['default']]. *)
Definition default_color : jsstring := js "#DA70D6".

(** Case-insensitive matching of two symbols, as the specification words it
    (not a function of the source): the symbols agree once their ASCII
    letters are put in lower case. *)
Definition toLowerAscii (c : N) : N :=
  if N.leb 65 c && N.leb c 90 then (c + 32)%N else c.
Definition spec_caseInsensitiveMatch (a b : jsstring) : bool :=
  str_eqb (map toLowerAscii a) (map toLowerAscii b).

(* ================================================================== *)
(** * The 3D view: [MoleculeStructure3D] *)
(* ================================================================== *)

Module Viewer3D.

(** [THREE.Vector3] and the methods the component calls. *)
Record Vector3 : Type := vec3 { vx : number; vy : number; vz : number }.

Definition zero : Vector3 := vec3 0 0 0.
Definition add (u v : Vector3) : Vector3 :=
  vec3 (vx u + vx v) (vy u + vy v) (vz u + vz v).
Definition sub (u v : Vector3) : Vector3 :=
  vec3 (vx u - vx v) (vy u - vy v) (vz u - vz v).
Definition multiplyScalar (u : Vector3) (s : number) : Vector3 :=
  vec3 (vx u * s) (vy u * s) (vz u * s).
(** three.js: [divideScalar(s)] is [multiplyScalar(1 / s)]. *)
Definition divideScalar (u : Vector3) (s : number) : Vector3 :=
  multiplyScalar u (1 / s).
Definition distanceToSquared (u v : Vector3) : number :=
  let dx := vx u - vx v in
  let dy := vy u - vy v in
  let dz := vz u - vz v in
  dx * dx + dy * dy + dz * dz.
Definition distanceTo (u v : Vector3) : number := sqrt (distanceToSquared u v).

Definition position (a : Atom3D) : Vector3 := vec3 (a3_x a) (a3_y a) (a3_z a).

(** The fixed target radius. *)
Definition targetRadius : number := 5.5.

(** [atoms.forEach(a => centroid.add(...)); centroid.divideScalar(atoms.length)] *)
Definition centroidOf (l : list Atom3D) : Vector3 :=
  divideScalar (fold_left (fun c a => add c (position a)) l zero)
               (INR (List.length l)).

(** One step of the loop below: [if (dist > maxDist) maxDist = dist]. *)
Definition farther (c : Vector3) (maxDist : number) (p : Vector3) : number :=
  let dist := distanceTo p c in
  if Rgt_dec dist maxDist then dist else maxDist.

(** [let maxDist = 0; atoms.forEach(a => { const dist = ...distanceTo(centroid);
     if (dist > maxDist) maxDist = dist })] *)
Definition maxDistFrom (c : Vector3) (l : list Vector3) : number :=
  fold_left (farther c) l 0.

(** [new THREE.Vector3(a.x, a.y, a.z).sub(centroid).multiplyScalar(scale)] *)
Definition normalize (c : Vector3) (s : number) (p : Vector3) : Vector3 :=
  multiplyScalar (sub p c) s.

(** [maxDist > 0 ? 5.5 / maxDist : 1] *)
Definition scaleOf (maxDist : number) : number :=
  if Rgt_dec maxDist 0 then targetRadius / maxDist else 1.

Record Node : Type := mkNode {
  pos : Vector3;
  n_element : jsstring;
  color : option propval
}.

Record Memo : Type := mkMemo {
  nodes : list Node;
  connections : list (Z * Z)
}.

(** The [useMemo] body of [MoleculeStructure3D]. *)
Definition memo (structureData : option MoleculeStructure) : Memo :=
  match structureData with
  | Some sd =>
      match atoms sd with
      | [] => mkMemo [] []
      | _ :: _ =>
          let centroid := centroidOf (atoms sd) in
          let maxDist := maxDistFrom centroid (map position (atoms sd)) in
          let scale := scaleOf maxDist in
          mkMemo
            (map (fun a =>
                    mkNode (multiplyScalar (sub (position a) centroid) scale)
                           (a3_element a)
                           (getAtomColor (a3_element a)))
                 (atoms sd))
            (map (fun b => (from b, to b)) (bonds sd))
      end
  | None => mkMemo [] []
  end.

(** What the scene holds: the sphere of an atom, the cylinder of a bond. *)
Inductive Mesh : Type :=
| Sphere (center : Vector3) (radius : number) (color : option propval)
| Cylinder (mid : Vector3) (length : number) (radius : number)
           (color : jsstring).

(** [node.element === 'H' ? 0.2 : 0.35] *)
Definition sphereRadius (el : jsstring) : number :=
  if str_eqb el (js "H") then 0.2 else 0.35.

Definition sphereOf (n : Node) : Mesh :=
  Sphere (pos n) (sphereRadius (n_element n)) (color n).

(** [nodes[i]]: [undefined] outside the array. *)
Definition index {A} (l : list A) (i : Z) : option A :=
  if (i <? 0)%Z then None else nth_error l (Z.to_nat i).

(** [nodes[i].pos]: reading [pos] of [undefined] throws. *)
Definition posAt (ns : list Node) (i : Z) : outcome Vector3 :=
  match index ns i with
  | Some n => Returns (pos n)
  | None => Throws (TypeError_read (js "undefined") (js "pos"))
  end.

(** The [Bond] component: a cylinder of radius 0.1 at the midpoint. *)
Definition BondMesh (start end_ : Vector3) : Mesh :=
  Cylinder (multiplyScalar (add start end_) 0.5) (distanceTo start end_)
           0.1 (js "#64748b").

Local Open Scope js_scope.

(** [connections.map(conn => <Bond start={nodes[conn[0]].pos}
                                    end={nodes[conn[1]].pos} />)] *)
Fixpoint bondMeshes (ns : list Node) (conns : list (Z * Z))
  : outcome (list Mesh) :=
  match conns with
  | [] => Returns []
  | (i, j) :: rest =>
      s <- posAt ns i ;;
      e <- posAt ns j ;;
      ms <- bondMeshes ns rest ;;
      Returns (BondMesh s e :: ms)
  end.

(** The render of [MoleculeStructure3D]: [None] is the [null] element. *)
Definition render (structureData : option MoleculeStructure)
  : outcome (option (list Mesh)) :=
  let m := memo structureData in
  match nodes m with
  | [] => Returns None
  | _ :: _ =>
      bs <- bondMeshes (nodes m) (connections m) ;;
      Returns (Some (map sphereOf (nodes m) ++ bs))
  end.

End Viewer3D.

(* ================================================================== *)
(** * The 2D view: [MoleculeStructure2D] *)
(* ================================================================== *)

Module Viewer2D.

(** The four numbers of the [viewBox] attribute. *)
Record ViewBox : Type := mkViewBox {
  vbX : number; vbY : number; vbW : number; vbH : number
}.

Record Derived : Type := mkDerived {
  nodes : list Atom2D;
  connections : list Bond;
  viewBox : ViewBox;
  isFallback : bool;
  isOfficial : bool
}.

(** [atoms.map((a, i) => ({ id: i, element: a.element, x: a.x * 20, y: a.y * 20 }))] *)
Fixpoint projectFrom (i : Z) (l : list Atom3D) : list Atom2D :=
  match l with
  | [] => []
  | a :: rest =>
      mkAtom2D i (a3_element a) (a3_x a * 20) (a3_y a * 20)
      :: projectFrom (i + 1)%Z rest
  end.
Definition project (l : list Atom3D) : list Atom2D := projectFrom 0%Z l.

Definition nonEmpty {A} (l : list A) : bool :=
  match l with [] => false | _ :: _ => true end.

(** [structureData?.structure2D?.atoms?.length
     && structureData.structure2D.atoms.length > 0] *)
Definition has2D (structureData : option MoleculeStructure) : option Structure2D :=
  match structureData with
  | Some sd =>
      match structure2D sd with
      | Some s2 => if nonEmpty (atoms2 s2) then Some s2 else None
      | None => None
      end
  | None => None
  end.

(** [structureData?.atoms?.length && structureData.atoms.length > 0] *)
Definition has3D (structureData : option MoleculeStructure) : option MoleculeStructure :=
  match structureData with
  | Some sd => if nonEmpty (atoms sd) then Some sd else None
  | None => None
  end.

(** The variables the [if]/[else if] chain assigns. *)
Record Chosen : Type := mkChosen {
  atomsList : list Atom2D;
  bondsList : list Bond;
  isFallbackData : bool;
  isOfficialData : bool
}.

Definition choose (pubChemData : option Structure2D)
                  (structureData : option MoleculeStructure) : Chosen :=
  match pubChemData with
  | Some pc =>                                   (* if (pubChemData) *)
      mkChosen (atoms2 pc) (bonds2 pc) false true
  | None =>
      match has2D structureData with
      | Some s2 =>                               (* else if (... structure2D ...) *)
          mkChosen (atoms2 s2) (bonds2 s2) false false
      | None =>
          match has3D structureData with
          | Some sd =>                           (* else if (... atoms ...) *)
              mkChosen (project (atoms sd)) (bonds sd) true false
          | None => mkChosen [] [] false false
          end
      end
  end.

Definition lower (f : Atom2D -> number) (a0 : Atom2D) (rest : list Atom2D) : number :=
  fold_left (fun m a => if Rlt_dec (f a) m then f a else m) rest (f a0).
Definition upper (f : Atom2D -> number) (a0 : Atom2D) (rest : list Atom2D) : number :=
  fold_left (fun m a => if Rgt_dec (f a) m then f a else m) rest (f a0).

(** The placeholder return: [viewBox: "0 0 100 100"]. *)
Definition emptyDerived : Derived :=
  mkDerived [] [] (mkViewBox 0 0 100 100) false false.

(** The [useMemo] body.  The bounds start at plus and minus [Infinity], so
    the first atom always replaces them: the folds start from it. *)
Definition derive (pubChemData : option Structure2D)
                  (structureData : option MoleculeStructure) : Derived :=
  let c := choose pubChemData structureData in
  match atomsList c with
  | [] => emptyDerived
  | a0 :: rest =>
      let minX := lower a2_x a0 rest in
      let maxX := upper a2_x a0 rest in
      let minY := lower a2_y a0 rest in
      let maxY := upper a2_y a0 rest in
      let padding := if isOfficialData c then 1.5 else 20 in
      let width := (maxX - minX) + (padding * 2) in
      let height := (maxY - minY) + (padding * 2) in
      mkDerived (atomsList c) (bondsList c)
                (mkViewBox (minX - padding) (minY - padding) width height)
                (isFallbackData c) (isOfficialData c)
  end.

(** The pan and zoom state. *)
Record Transform : Type := mkTransform { k : number; tx : number; ty : number }.

(** A [<line>] as drawn: its own [stroke] when it has one, the [stroke] of
    the enclosing [<g>] otherwise. *)
Record Line : Type := mkLine {
  x1 : number; y1 : number; x2 : number; y2 : number;
  stroke : jsstring;
  strokeWidth : number;
  strokeDasharray : option (number * number);
  opacity : option number
}.

Definition bondColor : jsstring := js "#94a3b8".
Definition backgroundColor : jsstring := js "#0B0F19".

(** [(Math.max(0.3, vbWidth / 100)) / transform.k] *)
Definition strokeScale (vb : ViewBox) (t : Transform) : number :=
  Rmax 0.3 (vbW vb / 100) / k t.

(** [0.6 * strokeScale * (pubChemData ? 0.1 : 5)] *)
Definition baseWidth (sc : number) (pubChemData : option Structure2D) : number :=
  0.6 * sc * (match pubChemData with Some _ => 0.1 | None => 5 end).

(** [nodes.find(n => n.id === i)] *)
Definition findNode (ns : list Atom2D) (i : Z) : option Atom2D :=
  find (fun n => Z.eqb (a2_id n) i) ns.

(** The lines of one bond between two found atoms. *)
Definition bondLines (f t : Atom2D) (ord : Z) (w : number) : list Line :=
  let line := mkLine (a2_x f) (a2_y f) (a2_x t) (a2_y t) in
  if Z.eqb ord 2 then
    [ line bondColor (w * 2.5) None None;
      line backgroundColor (w * 0.8) None None ]
  else if Z.eqb ord 3 then
    [ line bondColor (w * 3.5) None None;
      line backgroundColor (w * 1.5) None None;
      line bondColor (w * 0.5) None None ]
  else if Z.eqb ord 4 then
    [ line bondColor w (Some (w * 2, w)) None;
      line bondColor w None (Some 0.5) ]
  else
    [ line bondColor w None None ].

(** One entry of [connections.map(...)]: [None] is the [null] element. *)
Definition renderBond (ns : list Atom2D) (w : number) (conn : Bond)
  : option (list Line) :=
  match findNode ns (from conn), findNode ns (to conn) with
  | Some f, Some t => Some (bondLines f t (order conn) w)
  | _, _ => None
  end.

(** One entry of [nodes.map(...)]: the clearing circle and the label. *)
Record Glyph : Type := mkGlyph {
  cx : number; cy : number; r : number;
  label : jsstring;
  fontSize : number;
  fill : option propval
}.

Definition renderNode (sc : number) (pubChemData : option Structure2D)
                      (n : Atom2D) : Glyph :=
  let fs := (match pubChemData with Some _ => 0.4 | None => 8 end) * sc * 4 in
  mkGlyph (a2_x n) (a2_y n) (fs * 0.5) (a2_element n) fs
          (getAtomColor (a2_element n)).

Inductive Rendered : Type :=
| Placeholder (text : jsstring)
| Diagram (badge : jsstring) (vb : ViewBox)
          (bondEls : list (option (list Line))) (atomEls : list Glyph).

(** The render of [MoleculeStructure2D]. *)
Definition render (pubChemData : option Structure2D) (isLoadingPubChem : bool)
                  (structureData : option MoleculeStructure)
                  (transform : Transform) : Rendered :=
  let d := derive pubChemData structureData in
  match nodes d with
  | [] => Placeholder (if isLoadingPubChem then js "Fetching structure..."
                       else js "Structure unavailable")
  | _ :: _ =>
      let sc := strokeScale (viewBox d) transform in
      Diagram (match pubChemData with
               | Some _ => js "PubChem Source"
               | None => js "AI Generated"
               end)
              (viewBox d)
              (map (renderBond (nodes d) (baseWidth sc pubChemData)) (connections d))
              (map (renderNode sc pubChemData) (nodes d))
  end.

(** The lines a rendered bond list draws. *)
Definition primitives (els : list (option (list Line))) : list Line :=
  flat_map (fun e => match e with Some ls => ls | None => [] end) els.

End Viewer2D.

(* ================================================================== *)
(** * The viewport controller (the zoom and pan handlers) *)
(* ================================================================== *)

Module Viewport.
Import Viewer2D.

Record Pan : Type := mkPan { px : number; py : number }.

(** The three [useState] cells the handlers work on. *)
Record State : Type := mkState {
  transform : Transform;
  isDragging : bool;
  startPan : Pan
}.

Definition initial : State :=
  mkState (mkTransform 1 0 0) false (mkPan 0 0).

(** The component between two renders: [current] holds the committed
    cells, [seen] the values the handlers of the last render closed over. *)
Record Component : Type := mkComponent { current : State; seen : State }.

Definition mounted : Component := mkComponent initial initial.

Inductive Event : Type :=
| ZoomIn
| ZoomOut
| Reset
| Wheel (deltaY : number)
| MouseDown (clientX clientY : number)
| MouseMove (clientX clientY : number)
| MouseUp
| Render.

Definition setTransform (f : Transform -> Transform) (s : State) : State :=
  mkState (f (transform s)) (isDragging s) (startPan s).
Definition setIsDragging (b : bool) (s : State) : State :=
  mkState (transform s) b (startPan s).
Definition setStartPan (p : Pan) (s : State) : State :=
  mkState (transform s) (isDragging s) p.

(** [setTransform(t => ({ ...t, k: Math.min(t.k * 1.2, 5) }))] *)
Definition handleZoomIn : State -> State :=
  setTransform (fun t => mkTransform (Rmin (k t * 1.2) 5) (tx t) (ty t)).

(** [setTransform(t => ({ ...t, k: Math.max(t.k / 1.2, 0.5) }))] *)
Definition handleZoomOut : State -> State :=
  setTransform (fun t => mkTransform (Rmax (k t / 1.2) 0.5) (tx t) (ty t)).

(** [setTransform({ k: 1, x: 0, y: 0 })] *)
Definition handleReset : State -> State :=
  setTransform (fun _ => mkTransform 1 0 0).

(** [handleWheel]: the new scale is computed from the [transform] of the
    last render. *)
Definition handleWheel (closure : State) (deltaY : number) : State -> State :=
  let scaleAmount := - deltaY * 0.001 in
  let newScale := Rmin (Rmax 0.5 (k (transform closure) + scaleAmount)) 5 in
  setTransform (fun prev => mkTransform newScale (tx prev) (ty prev)).

Definition handleMouseDown (closure : State) (clientX clientY : number)
  : State -> State :=
  fun s =>
    setStartPan (mkPan (clientX - tx (transform closure))
                       (clientY - ty (transform closure)))
                (setIsDragging true s).

Definition handleMouseMove (closure : State) (clientX clientY : number)
  : State -> State :=
  if isDragging closure
  then setTransform (fun prev =>
         mkTransform (k prev) (clientX - px (startPan closure))
                              (clientY - py (startPan closure)))
  else fun s => s.

Definition handleMouseUp : State -> State := setIsDragging false.

Definition step (c : Component) (e : Event) : Component :=
  match e with
  | ZoomIn => mkComponent (handleZoomIn (current c)) (seen c)
  | ZoomOut => mkComponent (handleZoomOut (current c)) (seen c)
  | Reset => mkComponent (handleReset (current c)) (seen c)
  | Wheel d => mkComponent (handleWheel (seen c) d (current c)) (seen c)
  | MouseDown a b => mkComponent (handleMouseDown (seen c) a b (current c)) (seen c)
  | MouseMove a b => mkComponent (handleMouseMove (seen c) a b (current c)) (seen c)
  | MouseUp => mkComponent (handleMouseUp (current c)) (seen c)
  | Render => mkComponent (current c) (current c)
  end.

Definition run (es : list Event) : Component := fold_left step es mounted.

(** The scale is in [[0.5, 5]]. *)
Definition inRange (s : State) : Prop := 0.5 <= k (transform s) <= 5.

Definition bothInRange (c : Component) : Prop :=
  inRange (current c) /\ inRange (seen c).

End Viewport.

(* ================================================================== *)
(** * The external structure fetcher (the [useEffect] of the 2D view) *)
(* ================================================================== *)

Module Fetcher.

(** How one run of [fetchPubChem] ends once its request settles:
    - [Parsed d]: the record had [atoms] and [coords], and
      [setPubChemData(d)] is reached with the parsed layout;
    - [NoRecord]: one of the two [if]s was false, nothing is set;
    - [Failed e]: [fetch], [response.json()] or the parsing threw, and the
      [catch] logged a warning.
    In the three cases [finally] runs [setIsLoadingPubChem(false)]. *)
Inductive FetchOutcome : Type :=
| Parsed (d : Structure2D)
| NoRecord
| Failed (e : JsError).

(** A request on the wire: its rank of issue and the name it asked for. *)
Record Request : Type := mkRequest { req_id : nat; req_name : jsstring }.

Record State : Type := mkState {
  moleculeName : jsstring;
  pubChemData : option Structure2D;
  isLoadingPubChem : bool;
  inFlight : list Request;
  issued : nat
}.

(** The part of [fetchPubChem] that runs at once, up to the first [await]. *)
Definition effect (s : State) : State :=
  match moleculeName s with
  | [] => s                                       (* if (!moleculeName) return *)
  | _ :: _ =>
      mkState (moleculeName s)
              None                                (* setPubChemData(null) *)
              true                                (* setIsLoadingPubChem(true) *)
              (inFlight s ++ [mkRequest (issued s) (moleculeName s)])
              (S (issued s))
  end.

(** The first render with molecule name [n]. *)
Definition mount (n : jsstring) : State :=
  effect (mkState n None false [] O).

Definition isInFlight (i : nat) (s : State) : bool :=
  existsb (fun q => Nat.eqb (req_id q) i) (inFlight s).

(** The rest of [fetchPubChem], run when request [i] settles. *)
Definition resolve (i : nat) (o : FetchOutcome) (s : State) : State :=
  if isInFlight i s then
    mkState (moleculeName s)
            (match o with
             | Parsed d => Some d                 (* setPubChemData({ atoms, bonds }) *)
             | NoRecord => pubChemData s
             | Failed _ => pubChemData s
             end)
            false                                 (* finally: setIsLoadingPubChem(false) *)
            (filter (fun q => negb (Nat.eqb (req_id q) i)) (inFlight s))
            (issued s)
  else s.

Inductive Event : Type :=
| NameChange (n : jsstring)     (* the parent passes a new [moleculeName] *)
| Resolve (i : nat) (o : FetchOutcome).

(** The effect depends on [[moleculeName]]: it runs when the name differs
    from the one of the previous render. *)
Definition step (s : State) (e : Event) : State :=
  match e with
  | NameChange n =>
      if str_eqb n (moleculeName s) then s
      else effect (mkState n (pubChemData s) (isLoadingPubChem s)
                           (inFlight s) (issued s))
  | Resolve i o => resolve i o s
  end.

Definition run (n : jsstring) (es : list Event) : State :=
  fold_left step es (mount n).

(** The name request [i] was issued for, while it is in flight. *)
Definition nameOf (i : nat) (s : State) : option jsstring :=
  option_map req_name (find (fun q => Nat.eqb (req_id q) i) (inFlight s)).

End Fetcher.

(* ================================================================== *)
(** * [geminiService.parseJSON] *)
(* ================================================================== *)

Module GeminiService.

Definition fenceJson : jsstring := js "```json".
Definition fence : jsstring := js "```".

(** [text.replace(/```json/g, '').replace(/```/g, '').trim()] *)
Definition cleaned (text : jsstring) : jsstring :=
  trim (removeAll fence (removeAll fenceJson text)).

Section Parser.
(** The built-in [JSON.parse]: the parsed value, or a [SyntaxError]. *)
Variable JSON_parse : jsstring -> outcome json.

(** [try { return JSON.parse(cleaned) } catch (e) { console.error(...); return {} }] *)
Definition parseJSON (text : jsstring) : outcome json :=
  try_catch (JSON_parse (cleaned text)) (fun _ => Returns empty_object).
End Parser.

End GeminiService.

(* ================================================================== *)
(** * [ComparisonEngine.handleCompare] *)
(* ================================================================== *)

Module ComparisonEngine.

(** The [useState] cells of the component. *)
Record State : Type := mkState {
  mol1 : jsstring;
  mol2 : jsstring;
  loading : bool;
  error : option jsstring;
  data : option json
}.

(** [`Comparison: ${m1} vs ${m2}`], kept as the template and its two
    arguments ([None] is [undefined]). *)
Record Title : Type := mkTitle { title_m1 : option json; title_m2 : option json }.

Record AnalysisResult : Type := mkAnalysisResult {
  ar_id : Z;                  (* Date.now().toString() *)
  ar_type : jsstring;
  ar_timestamp : Z;
  ar_title : Title;
  ar_data : json
}.

(** What the handler does to the outside, in order. *)
Inductive Call : Type :=
| ValidationRequest (m1 m2 : jsstring)      (* validateComparisonInputs *)
| ComparisonRequest (m1 m2 : jsstring)      (* compareMoleculesText *)
| AnalysisComplete (r : AnalysisResult)     (* onAnalysisComplete *)
| ConsoleError (e : JsError).

(** The answers of the outside: how each service promise settles, and the
    two readings of the clock. *)
Record Env : Type := mkEnv {
  validateComparisonInputs : jsstring -> jsstring -> outcome json;
  compareMoleculesText : jsstring -> jsstring -> outcome json;
  now_id : Z;
  now_timestamp : Z
}.

Definition World : Type := (State * list Call)%type.

(** State, trace and exceptions together. *)
Definition M (A : Type) : Type := World -> outcome A * World.

Definition ret {A} (a : A) : M A := fun w => (Returns a, w).
Definition bindM {A B} (m : M A) (f : A -> M B) : M B :=
  fun w => match m w with
           | (Returns a, w') => f a w'
           | (Throws e, w') => (Throws e, w')
           end.
Definition lift {A} (o : outcome A) : M A := fun w => (o, w).
Definition emit (c : Call) : M unit :=
  fun w => (Returns tt, (fst w, snd w ++ [c])).
Definition modify (f : State -> State) : M unit :=
  fun w => (Returns tt, (f (fst w), snd w)).

Definition tryCatch {A} (body : M A) (handler : JsError -> M A) : M A :=
  fun w => match body w with
           | (Returns a, w') => (Returns a, w')
           | (Throws e, w') => handler e w'
           end.
Definition tryFinally {A} (body : M A) (fin : M unit) : M A :=
  fun w => match body w with
           | (o, w') => match fin w' with
                        | (Returns _, w'') => (o, w'')
                        | (Throws e, w'') => (Throws e, w'')
                        end
           end.

Declare Scope ui_scope.
Delimit Scope ui_scope with ui.
Notation "x <- m ;; f" := (bindM m (fun x => f))
  (at level 61, m at next level, right associativity) : ui_scope.
Notation "m ;;; f" := (bindM m (fun _ => f))
  (at level 61, right associativity) : ui_scope.
Local Open Scope ui_scope.

Definition setLoading (b : bool) : M unit :=
  modify (fun s => mkState (mol1 s) (mol2 s) b (error s) (data s)).
Definition setError (e : option jsstring) : M unit :=
  modify (fun s => mkState (mol1 s) (mol2 s) (loading s) e (data s)).
Definition setData (d : option json) : M unit :=
  modify (fun s => mkState (mol1 s) (mol2 s) (loading s) (error s) d).

(** [!s.trim()] *)
Definition blank (s : jsstring) : bool :=
  match trim s with [] => true | _ :: _ => false end.

Definition notRecognized (m : jsstring) : jsstring :=
  dquote ++ m ++ dquote
  ++ js " is not a recognized molecule or valid structure format.".

(** The message built when one of the two flags is falsy. *)
Definition invalidMessage (m1 m2 : jsstring) (mol1Valid mol2Valid : bool)
  : jsstring :=
  js "Invalid Input: " ++
  (if negb mol1Valid && negb mol2Valid
   then js "Both inputs are not recognized as valid chemical entities."
   else if negb mol1Valid then notRecognized m1
   else if negb mol2Valid then notRecognized m2
   else []).

(** [e.message || "Analysis failed. Please check your connection."] *)
Definition failureMessage (e : JsError) : jsstring :=
  match err_message e with
  | [] => js "Analysis failed. Please check your connection."
  | _ :: _ => err_message e
  end.

(** The two flags as the conditions read them.  Reading a property throws
    on [null] only, so once [mol1Valid] is read no later read can throw. *)
Definition readFlags (validation : json) : outcome (bool * bool) :=
  JS.bind (getProp validation (js "mol1Valid")) (fun v1 =>
  JS.bind (getProp validation (js "mol2Valid")) (fun v2 =>
  Returns (truthy v1, truthy v2))).

Definition handleCompare (env : Env) : M unit :=
  fun w =>
    let m1 := mol1 (fst w) in
    let m2 := mol2 (fst w) in
    if blank m1 || blank m2 then ret tt w
    else
      (setLoading true ;;;
       setError None ;;;
       setData None ;;;
       tryFinally
         (tryCatch
            (emit (ValidationRequest m1 m2) ;;;
             validation <- lift (validateComparisonInputs env m1 m2) ;;
             flags <- lift (readFlags validation) ;;
             if negb (fst flags) || negb (snd flags) then
               setError (Some (invalidMessage m1 m2 (fst flags) (snd flags))) ;;;
               setLoading false
             else
               emit (ComparisonRequest m1 m2) ;;;
               result <- lift (compareMoleculesText env m1 m2) ;;
               setData (Some result) ;;;
               t1 <- lift (getProp result (js "molecule1")) ;;
               t2 <- lift (getProp result (js "molecule2")) ;;
               emit (AnalysisComplete
                       (mkAnalysisResult (now_id env) (js "COMPARISON")
                          (now_timestamp env) (mkTitle t1 t2) result)))
            (fun e =>
               emit (ConsoleError e) ;;;
               setError (Some (failureMessage e))))
         (setLoading false)) w.

End ComparisonEngine.

(* ================================================================== *)
(** * The geometry normalizer in double arithmetic *)
(* ================================================================== *)

(** The [useMemo] body of [MoleculeStructure3D] once more, on binary64
    floats with the IEEE operations JavaScript uses; the atoms are given by
    their positions. *)
Module Normalizer64.
Import Floats.PrimFloat.
Local Open Scope float_scope.

Record Vector3 : Type := vec3 { vx : float; vy : float; vz : float }.

Definition zero : Vector3 := vec3 0 0 0.
Definition add (u v : Vector3) : Vector3 :=
  vec3 (vx u + vx v) (vy u + vy v) (vz u + vz v).
Definition sub (u v : Vector3) : Vector3 :=
  vec3 (vx u - vx v) (vy u - vy v) (vz u - vz v).
Definition multiplyScalar (u : Vector3) (s : float) : Vector3 :=
  vec3 (vx u * s) (vy u * s) (vz u * s).
(** three.js: [divideScalar(s)] is [multiplyScalar(1 / s)]. *)
Definition divideScalar (u : Vector3) (s : float) : Vector3 :=
  multiplyScalar u (1 / s).
Definition distanceToSquared (u v : Vector3) : float :=
  let dx := vx u - vx v in
  let dy := vy u - vy v in
  let dz := vz u - vz v in
  dx * dx + dy * dy + dz * dz.
Definition distanceTo (u v : Vector3) : float := sqrt (distanceToSquared u v).

(** [atoms.length] as a number. *)
Fixpoint lengthOf (n : nat) : float :=
  match n with
  | O => 0
  | S k => lengthOf k + 1
  end.

Definition centroidOf (l : list Vector3) : Vector3 :=
  divideScalar (fold_left add l zero) (lengthOf (List.length l)).

(** [if (dist > maxDist) maxDist = dist] *)
Definition farther (c : Vector3) (maxDist : float) (p : Vector3) : float :=
  let dist := distanceTo p c in
  if ltb maxDist dist then dist else maxDist.

Definition maxDistFrom (c : Vector3) (l : list Vector3) : float :=
  fold_left (farther c) l 0.

(** [maxDist > 0 ? 5.5 / maxDist : 1] *)
Definition scaleOf (maxDist : float) : float :=
  if ltb 0 maxDist then 5.5 / maxDist else 1.

(** The positions of the nodes. *)
Definition normalized (l : list Vector3) : list Vector3 :=
  match l with
  | [] => []
  | _ :: _ =>
      let centroid := centroidOf l in
      let scale := scaleOf (maxDistFrom centroid l) in
      map (fun p => multiplyScalar (sub p centroid) scale) l
  end.


End Normalizer64.

(* ================================================================== *)
(** * Sample data *)
(* ================================================================== *)

Module Samples.

(** A carbon and an oxygen of a 2D layout, ids 1 and 2. *)
Definition carbon2D : Atom2D := mkAtom2D 1 (js "C") 0 0.
Definition oxygen2D : Atom2D := mkAtom2D 2 (js "O") 30 0.
Definition doubleBond : Bond := mkBond 1 2 2.

(** A structure with one 3D atom, a 2D layout of two atoms, and a bond
    whose second end, index 5, is no atom of the list. *)
Definition carbon3D : Atom3D := mkAtom3D (js "C") 1 2 3 None.
Definition danglingBond : Bond := mkBond 0 5 1.
Definition sampleStructure : MoleculeStructure :=
  mkMoleculeStructure (js "C=O") None None
    [carbon3D] [danglingBond]
    (Some (mkStructure2D [carbon2D; oxygen2D] [doubleBond])).

(** A structure of two atoms, two units apart. *)
Definition twoAtoms : MoleculeStructure :=
  mkMoleculeStructure (js "[HH]") None None
    [mkAtom3D (js "H") 0 0 0 None; mkAtom3D (js "H") 2 0 0 None]
    [mkBond 0 1 1] None.

(** A fetched layout that parsed to no atom at all. *)
Definition emptyLayout : Structure2D := mkStructure2D [] [].


(** Two molecule names, and the layout fetched for the first. *)
Definition aspirin : jsstring := js "aspirin".
Definition caffeine : jsstring := js "caffeine".
Definition aspirinLayout : Structure2D := mkStructure2D [carbon2D; oxygen2D] [doubleBond].

(** The comparison form filled with a known and an unknown name, and a
    validation answer accepting the first only. *)
Definition unknownName : jsstring := js "xyz123notamolecule".
Definition filledForm : ComparisonEngine.State :=
  ComparisonEngine.mkState aspirin unknownName false None None.
Definition secondInvalid : json :=
  JObject [ (js "mol1Valid", JBool true); (js "mol2Valid", JBool false) ].
Definition rejectingSecond : ComparisonEngine.Env :=
  ComparisonEngine.mkEnv (fun _ _ => Returns secondInvalid)
                         (fun _ _ => Returns empty_object) 0 0.

(** The 2D view mounted on aspirin, then switched to caffeine; and the
    same once request 0, the one for aspirin, settles with its layout. *)
Definition switched : Fetcher.State :=
  Fetcher.run aspirin [Fetcher.NameChange caffeine].
Definition switchedThenStale : Fetcher.State :=
  Fetcher.step switched (Fetcher.Resolve 0 (Fetcher.Parsed aspirinLayout)).

(** A model answer wrapped in a Markdown fence, and its payload. *)
Definition payload : jsstring := js "[1, 2]".
Definition fencedAnswer : jsstring :=
  js "```json" ++ [10%N] ++ payload ++ [10%N] ++ js "```".

(** A parser that knows one text only. *)
Definition toyParse (t : jsstring) : outcome json :=
  if str_eqb t payload
  then Returns (JArray [JNumber 1; JNumber 2])
  else Throws (mkError (js "SyntaxError") (js "Unexpected token")).

(** The form with a first input of two spaces. *)
Definition blankForm : ComparisonEngine.State :=
  ComparisonEngine.mkState (js "  ") aspirin false None None.

End Samples.

(* ================================================================== *)
(** * Further functions of the same sources *)
(* ================================================================== *)

(** ** Helpers of the viewer *)

Module ViewerExtra.

(** Atomic number to symbol, for the parsing of PubChem records. *)
Definition ATOMIC_NUMBER_MAP : list (Z * jsstring) :=
  [ (1, js "H"); (2, js "He"); (3, js "Li"); (4, js "Be"); (5, js "B");
    (6, js "C"); (7, js "N"); (8, js "O"); (9, js "F"); (10, js "Ne");
    (11, js "Na"); (12, js "Mg"); (13, js "Al"); (14, js "Si"); (15, js "P");
    (16, js "S"); (17, js "Cl"); (19, js "K"); (20, js "Ca");
    (26, js "Fe"); (29, js "Cu"); (30, js "Zn"); (35, js "Br"); (47, js "Ag");
    (53, js "I"); (79, js "Au"); (80, js "Hg") ]%Z.

Fixpoint lookupZ (n : Z) (l : list (Z * jsstring)) : option jsstring :=
  match l with
  | [] => None
  | (k, v) :: l' => if Z.eqb n k then Some v else lookupZ n l'
  end.

(** [ATOMIC_NUMBER_MAP[n] || 'X'] (every symbol of the map is a non-empty
    string, so [||] takes the second operand on [undefined] only). *)
Definition elementSymbol (n : Z) : jsstring :=
  match lookupZ n ATOMIC_NUMBER_MAP with
  | Some sym => sym
  | None => js "X"
  end.

(** Whether the two ends of a bond are indices of an array of [n] atoms. *)
Definition isIndex (n : nat) (i : Z) : bool :=
  (0 <=? i)%Z && (i <? Z.of_nat n)%Z.
Definition bondInRange (n : nat) (b : Bond) : bool :=
  isIndex n (from b) && isIndex n (to b).

(** Where the 3D view puts an atom of a structure:
    [new THREE.Vector3(a.x, a.y, a.z).sub(centroid).multiplyScalar(scale)]
    with the centroid and the scale of the structure. *)
Definition placed (sd : MoleculeStructure) (a : Atom3D) : Viewer3D.Vector3 :=
  let centroid := Viewer3D.centroidOf (atoms sd) in
  let maxDist :=
    Viewer3D.maxDistFrom centroid (map Viewer3D.position (atoms sd)) in
  Viewer3D.normalize centroid (Viewer3D.scaleOf maxDist) (Viewer3D.position a).

(** Whether a line has a positive stroke width. *)
Definition positiveWidth (l : Viewer2D.Line) : Prop := 0 < Viewer2D.strokeWidth l.

End ViewerExtra.

(** ** [cleanText] of the comparison view *)

Module ComparisonText.

(** [s.replace(/p/g, r)] for a literal, non-empty pattern [p]: as
    [removeAllFrom], each match being replaced by [r]. *)
Fixpoint replaceAllFrom (p r : jsstring) (skip : nat) (s : jsstring) : jsstring :=
  match s with
  | [] => []
  | c :: s' =>
      match skip with
      | S k => replaceAllFrom p r k s'
      | O => if startsWith p s
             then r ++ replaceAllFrom p r (pred (List.length p)) s'
             else c :: replaceAllFrom p r O s'
      end
  end.

Definition replaceAll (p r s : jsstring) : jsstring := replaceAllFrom p r O s.

(** The three artifacts removed: [_x000D_], a backslash followed by [n], and
    the Markdown bold marker (two asterisks). *)
Definition carriageArtifact : jsstring := js "_x000D_".
Definition escapedNewline : jsstring := [92%N; 110%N].
Definition newline : jsstring := [10%N].
Definition bold : jsstring := js "**".

(** [if (!text) return ''; return text.replace(/_x000D_/g, '')
     .replace(/\\n/g, '\n').replace(/\*\*/g, '').trim()]; [None] is
    [undefined]. *)
Definition cleanText (text : option jsstring) : jsstring :=
  match text with
  | None => []
  | Some [] => []
  | Some t =>
      trim (removeAll bold
              (replaceAll escapedNewline newline
                 (removeAll carriageArtifact t)))
  end.

End ComparisonText.

(** ** The history of [App] *)

Module App.

(** The state a run of [handleCompare] ends in: the inputs as they were,
    [loading] false, and the error and the data given. *)
Definition ended (s : ComparisonEngine.State) (e : option jsstring)
                 (d : option json) : ComparisonEngine.State :=
  ComparisonEngine.mkState (ComparisonEngine.mol1 s) (ComparisonEngine.mol2 s)
                           false e d.

Definition History : Type := list ComparisonEngine.AnalysisResult.

(** [setHistory(prev => [result, ...prev])] *)
Definition handleAnalysisComplete (result : ComparisonEngine.AnalysisResult)
                                  (prev : History) : History :=
  result :: prev.

(** [App] passes [handleAnalysisComplete] as the [onAnalysisComplete] prop:
    the history after the calls of a trace, in order. *)
Definition deliver (calls : list ComparisonEngine.Call) (h : History) : History :=
  fold_left (fun acc c =>
               match c with
               | ComparisonEngine.AnalysisComplete r => handleAnalysisComplete r acc
               | _ => acc
               end) calls h.

End App.

(** ** The answer of a service call *)

Module ServiceCalls.

(** [response.text || '{}'] *)
Definition responseText (text : option jsstring) : jsstring :=
  match text with
  | None => js "{}"
  | Some [] => js "{}"
  | Some t => t
  end.

(** What [validateComparisonInputs] and [compareMoleculesText] return once
    [generateContent] has settled: [parseJSON(response.text || '{}')], or the
    rejection of the request. *)
Definition parsedAnswer (JSON_parse : jsstring -> outcome json)
                        (response : outcome (option jsstring)) : outcome json :=
  JS.bind response (fun text =>
    GeminiService.parseJSON JSON_parse (responseText text)).

End ServiceCalls.

(** ** [geminiService.fileToGenerativePart] *)

Module FilePart.

Definition SUPPORTED_MIME_TYPES : list jsstring :=
  [ js "image/png"; js "image/jpeg"; js "image/webp"; js "image/heic";
    js "image/heif" ].

(** [SUPPORTED_MIME_TYPES.includes(file.type) && file.type !== 'image/avif'] *)
Definition isDirect (fileType : jsstring) : bool :=
  existsb (str_eqb fileType) SUPPORTED_MIME_TYPES
  && negb (str_eqb fileType (js "image/avif")).

(** [s.split(',')]: the fields between the commas, at least one. *)
Fixpoint splitComma (s : jsstring) : list jsstring :=
  match s with
  | [] => [[]]
  | c :: s' =>
      if N.eqb c 44 then [] :: splitComma s'
      else match splitComma s' with
           | f :: fs => (c :: f) :: fs
           | [] => [[c]]
           end
  end.

(** [s.split(',')[1]]: [None] is [undefined]. *)
Definition secondField (s : jsstring) : option jsstring :=
  nth_error (splitComma s) 1.

Record Part : Type := mkPart { data : option jsstring; mimeType : jsstring }.

(** What a promise is rejected with. *)
Inductive Reason : Type :=
| ErrorObject (e : JsError)       (* [new Error(...)], or a caught exception *)
| ErrorEvent.                     (* the event passed to [reader.onerror] *)

Inductive Settled : Type :=
| Resolved (p : Part)
| Rejected (r : Reason).

(** A promise settles once: later calls of [resolve] or [reject] do nothing. *)
Definition settle (now : Settled) (st : option Settled) : option Settled :=
  match st with
  | Some s => Some s
  | None => Some now
  end.

(** The events of the [FileReader]: [loadend], with [reader.result] at that
    time ([None] is [null]), and [error]. *)
Inductive ReaderEvent : Type :=
| OnLoadEnd (result : option jsstring)
| OnError.

Definition failedToRead : JsError :=
  mkError (js "Error") (js "Failed to read file data").

(** The two handlers of the first branch. *)
Definition onReaderEvent (fileType : jsstring) (st : option Settled)
                         (e : ReaderEvent) : option Settled :=
  match e with
  | OnLoadEnd None => settle (Rejected (ErrorObject failedToRead)) st
  | OnLoadEnd (Some []) => settle (Rejected (ErrorObject failedToRead)) st
  | OnLoadEnd (Some base64Data) =>
      settle (Resolved (mkPart (secondField base64Data) fileType)) st
  | OnError => settle (Rejected ErrorEvent) st
  end.

(** The promise of the first branch after the events of the reader. *)
Definition readDirect (fileType : jsstring) (events : list ReaderEvent)
  : option Settled :=
  fold_left (onReaderEvent fileType) events None.

(** What the second branch does to the outside. *)
Inductive Effect : Type :=
| ConsoleLog (msg : jsstring)
| CreateObjectURL
| RevokeObjectURL.

(** How the image element fares: it loads, and then [getContext] gives a
    context or [null] ([false]), [drawImage] may throw and [toDataURL] may
    throw or give the data URL; or it fails to load. *)
Inductive ImageOutcome : Type :=
| Loaded (hasContext : bool) (draw : outcome unit) (dataURL : outcome jsstring)
| LoadError.

Definition noContext : JsError :=
  mkError (js "Error") (js "Canvas context unavailable for image conversion").
Definition unsupportedFormat (fileType : jsstring) : JsError :=
  mkError (js "Error")
    (js "Unsupported image format: " ++ fileType
     ++ js ". Please upload PNG, JPG, or WEBP.").

(** The second branch: the settled promise and the effects, in order. *)
Definition convert (fileType : jsstring) (o : ImageOutcome)
  : Settled * list Effect :=
  let start :=
    [ ConsoleLog (js "Converting unsupported format " ++ fileType
                  ++ js " to image/jpeg...");
      CreateObjectURL ] in
  match o with
  | Loaded false _ _ =>
      (Rejected (ErrorObject noContext), start ++ [RevokeObjectURL])
  | Loaded true (Throws e) _ =>
      (Rejected (ErrorObject e), start ++ [RevokeObjectURL])
  | Loaded true (Returns _) (Throws e) =>
      (Rejected (ErrorObject e), start ++ [RevokeObjectURL])
  | Loaded true (Returns _) (Returns dataURL) =>
      (Resolved (mkPart (secondField dataURL) (js "image/jpeg")),
       start ++ [RevokeObjectURL])
  | LoadError =>
      (Rejected (ErrorObject (unsupportedFormat fileType)),
       start ++ [RevokeObjectURL])
  end.

(** The promise [fileToGenerativePart] returns, given what the reader and
    the image element do ([None]: still pending), and the effects on object
    URLs and the console. *)
Definition fileToGenerativePart (fileType : jsstring)
    (events : list ReaderEvent) (img : ImageOutcome)
  : option Settled * list Effect :=
  if isDirect fileType
  then (readDirect fileType events, [])
  else (Some (fst (convert fileType img)), snd (convert fileType img)).

Definition isRevoke (e : Effect) : bool :=
  match e with RevokeObjectURL => true | _ => false end.
Definition isCreate (e : Effect) : bool :=
  match e with CreateObjectURL => true | _ => false end.

End FilePart.

(** ** The loading messages of [ImageAnalysis] and [TextAnalysis] *)

Module LoadingTicker.

Definition imageMessages : list jsstring :=
  [ js "Preprocessing image data..."; js "Identifying chemical bonds...";
    js "Analyzing atomic geometry..."; js "Matching molecular families...";
    js "Generating safety protocols..."; js "Synthesizing research report..." ].

Definition textMessages : list jsstring :=
  [ js "Reading unstructured text..."; js "Extracting key chemical entities...";
    js "Identifying experiment methodology...";
    js "Running deep mechanistic inference...";
    js "Simulating molecular conditions...";
    js "Structuring goals and results..."; js "Compiling reasoning snapshot..." ].

(** What happens to [loadingStep]: the effect on [loading] becoming true
    ([setLoadingStep(0)]), and a firing of the interval. *)
Inductive Event : Type :=
| LoadingStarts
| Tick.

(** [prev < loadingMessages.length - 1 ? prev + 1 : prev], for a list of
    [count] messages. *)
Definition advance (count : nat) (prev : nat) : nat :=
  if (Z.of_nat prev <? Z.of_nat count - 1)%Z then S prev else prev.

Definition step (count : nat) (loadingStep : nat) (e : Event) : nat :=
  match e with
  | LoadingStarts => O
  | Tick => advance count loadingStep
  end.

(** [loadingStep] starts at 0. *)
Definition run (count : nat) (es : list Event) : nat :=
  fold_left (step count) es O.

End LoadingTicker.

(* ================================================================== *)
(** * Properties *)
(* ================================================================== *)

(** ** The viewport controller *)

Section ViewportInvariant.
Import Viewer2D Viewport.

Lemma zoomIn_inRange s : inRange s -> inRange (handleZoomIn s).
Proof.
  unfold inRange, handleZoomIn, setTransform; simpl; intros [Hlo Hhi].
  unfold Rmin; destruct (Rle_dec _ _); lra.
Qed.

Lemma zoomOut_inRange s : inRange s -> inRange (handleZoomOut s).
Proof.
  unfold inRange, handleZoomOut, setTransform; simpl; intros [Hlo Hhi].
  unfold Rmax; destruct (Rle_dec _ _); lra.
Qed.

Lemma reset_inRange s : inRange (handleReset s).
Proof. unfold inRange, handleReset, setTransform; simpl; lra. Qed.

(** The wheel handler clamps whatever scale it closed over. *)
Lemma wheel_inRange closure d s : inRange (handleWheel closure d s).
Proof.
  unfold inRange, handleWheel, setTransform; simpl.
  unfold Rmin, Rmax.
  destruct (Rle_dec 0.5 _); destruct (Rle_dec _ 5); lra.
Qed.

Lemma mouseDown_inRange closure a b s :
  inRange s -> inRange (handleMouseDown closure a b s).
Proof. unfold inRange, handleMouseDown; simpl; auto. Qed.

Lemma mouseMove_inRange closure a b s :
  inRange s -> inRange (handleMouseMove closure a b s).
Proof.
  unfold inRange, handleMouseMove, setTransform.
  destruct (isDragging closure); simpl; auto.
Qed.

Lemma mouseUp_inRange s : inRange s -> inRange (handleMouseUp s).
Proof. unfold inRange, handleMouseUp; simpl; auto. Qed.

Lemma step_inRange c e : bothInRange c -> bothInRange (step c e).
Proof.
  intros [Hc Hs]; destruct e; split; simpl; auto using
    zoomIn_inRange, zoomOut_inRange, reset_inRange, wheel_inRange,
    mouseDown_inRange, mouseMove_inRange, mouseUp_inRange.
Qed.

Lemma fold_inRange es : forall c, bothInRange c -> bothInRange (fold_left step es c).
Proof.
  induction es as [|e es IH]; simpl; intros c Hc; [exact Hc|].
  apply IH, step_inRange, Hc.
Qed.

Lemma mounted_inRange : bothInRange mounted.
Proof. split; unfold inRange; simpl; lra. Qed.

(** C3.  Starting from the identity transform, after any sequence of
    zoom-in, zoom-out, reset and wheel events (and of drag events and
    renders between them) the committed scale [k], and the scale the
    handlers of the last render see, are within [[0.5, 5]].  The sequence
    is arbitrary, so the bound holds after every operation of a run. *)
Theorem viewport_scale_clamped (es : list Event) :
  0.5 <= k (transform (current (run es))) <= 5 /\
  0.5 <= k (transform (seen (run es))) <= 5.
Proof. exact (fold_inRange es mounted mounted_inRange). Qed.

End ViewportInvariant.

(** ** The 2D bond renderer *)

Section BondRenderer.
Import Viewer2D.

(** A bond with a missing endpoint gives the [null] element, which draws
    nothing. *)
Lemma renderBond_dangling ns w conn :
  findNode ns (from conn) = None \/ findNode ns (to conn) = None ->
  renderBond ns w conn = None /\ primitives [renderBond ns w conn] = [].
Proof.
  unfold renderBond; intros [H | H]; rewrite H.
  - auto.
  - destruct (findNode ns (from conn)); auto.
Qed.

(** C6.  For a bond whose two ends are found among the nodes, the element
    drawn holds: for order 2, two lines, the first in the bond colour and
    the second, narrower, in the background colour; for order 3, three
    lines (bond colour, background colour, bond colour); for order 4, two
    lines of the same width, the first dashed and the second solid at
    opacity 0.5; for any other order, one solid line. *)
Theorem bond_primitives_by_order ns w conn f t
  (Hfrom : findNode ns (from conn) = Some f)
  (Hto : findNode ns (to conn) = Some t) :
  let line := mkLine (a2_x f) (a2_y f) (a2_x t) (a2_y t) in
  exists ls, renderBond ns w conn = Some ls /\
    (order conn = 2%Z ->
       ls = [ line bondColor (w * 2.5) None None;
              line backgroundColor (w * 0.8) None None ]) /\
    (order conn = 3%Z ->
       ls = [ line bondColor (w * 3.5) None None;
              line backgroundColor (w * 1.5) None None;
              line bondColor (w * 0.5) None None ]) /\
    (order conn = 4%Z ->
       ls = [ line bondColor w (Some (w * 2, w)) None;
              line bondColor w None (Some 0.5) ]) /\
    (order conn <> 2%Z -> order conn <> 3%Z -> order conn <> 4%Z ->
       ls = [ line bondColor w None None ]).
Proof.
  intro line; unfold renderBond; rewrite Hfrom, Hto.
  eexists; split; [reflexivity|].
  unfold bondLines; fold line.
  repeat split.
  - intros ->; reflexivity.
  - intros ->; reflexivity.
  - intros ->; reflexivity.
  - intros H2 H3 H4.
    apply Z.eqb_neq in H2, H3, H4; rewrite H2, H3, H4; reflexivity.
Qed.

(** A double bond between atoms 1 and 2 of a two-atom layout. *)
Lemma bond_primitives_by_order_witness :
  findNode [Samples.carbon2D; Samples.oxygen2D] (from Samples.doubleBond) = Some Samples.carbon2D /\
  findNode [Samples.carbon2D; Samples.oxygen2D] (to Samples.doubleBond) = Some Samples.oxygen2D /\
  exists ls,
    renderBond [Samples.carbon2D; Samples.oxygen2D] 3 Samples.doubleBond = Some ls /\
    List.length ls = 2%nat.
Proof.
  split; [reflexivity|]. split; [reflexivity|].
  destruct (bond_primitives_by_order [Samples.carbon2D; Samples.oxygen2D] 3
              Samples.doubleBond Samples.carbon2D Samples.oxygen2D eq_refl eq_refl)
    as [ls [Hr [H2 _]]].
  exists ls; split; [exact Hr|].
  rewrite (H2 eq_refl); reflexivity.
Defined.

End BondRenderer.

(** ** The 2D coordinate resolver *)

Section Resolver.
Import Viewer2D.

(** What the chain of conditions selects, branch by branch. *)
Lemma choose_fetched pc sd :
  choose (Some pc) sd = mkChosen (atoms2 pc) (bonds2 pc) false true.
Proof. reflexivity. Qed.

Lemma choose_model2D sd s2 :
  has2D sd = Some s2 ->
  choose None sd = mkChosen (atoms2 s2) (bonds2 s2) false false.
Proof. unfold choose; intros ->; reflexivity. Qed.

Lemma choose_projection sd m :
  has2D sd = None -> has3D sd = Some m ->
  choose None sd = mkChosen (project (atoms m)) (bonds m) true false.
Proof. unfold choose; intros -> ->; reflexivity. Qed.

Lemma choose_nothing sd :
  has2D sd = None -> has3D sd = None ->
  choose None sd = mkChosen [] [] false false.
Proof. unfold choose; intros -> ->; reflexivity. Qed.

Lemma derive_nodes pc sd : nodes (derive pc sd) = atomsList (choose pc sd).
Proof.
  unfold derive; destruct (atomsList (choose pc sd)) eqn:E; simpl; auto.
Qed.

Lemma derive_isFallback pc sd :
  atomsList (choose pc sd) <> [] ->
  isFallback (derive pc sd) = isFallbackData (choose pc sd) /\
  connections (derive pc sd) = bondsList (choose pc sd).
Proof.
  unfold derive; destruct (atomsList (choose pc sd)) eqn:E; simpl; intuition.
Qed.

(** With a non-empty fetched layout the nodes are the fetched atoms; with
    none, the model's 2D atoms when it has some; failing both, the flagged
    projection of the 3D atoms; and the placeholder when nothing has atoms. *)
Lemma derive_priority pc sd :
  (forall p, pc = Some p -> atoms2 p <> [] ->
     nodes (derive pc sd) = atoms2 p /\ connections (derive pc sd) = bonds2 p /\
     isFallback (derive pc sd) = false) /\
  (forall s2, pc = None -> has2D sd = Some s2 ->
     nodes (derive pc sd) = atoms2 s2 /\ connections (derive pc sd) = bonds2 s2 /\
     isFallback (derive pc sd) = false) /\
  (forall m, pc = None -> has2D sd = None -> has3D sd = Some m ->
     nodes (derive pc sd) = project (atoms m) /\
     connections (derive pc sd) = bonds m /\
     isFallback (derive pc sd) = true) /\
  (pc = None -> has2D sd = None -> has3D sd = None ->
     derive pc sd = emptyDerived).
Proof.
  repeat split; intros; subst.
  - rewrite derive_nodes; reflexivity.
  - apply derive_isFallback; assumption.
  - apply derive_isFallback; assumption.
  - rewrite derive_nodes, (choose_model2D _ _ H0); reflexivity.
  - assert (Hne : atomsList (choose None sd) <> []).
    { rewrite (choose_model2D _ _ H0); simpl.
      unfold has2D in H0. destruct sd as [m|]; [|discriminate].
      destruct (structure2D m) as [q|]; [|discriminate].
      destruct (atoms2 q) eqn:E; simpl in H0; [discriminate|].
      injection H0 as <-. rewrite E; discriminate. }
    rewrite (proj2 (derive_isFallback _ _ Hne)), (choose_model2D _ _ H0).
    reflexivity.
  - assert (Hne : atomsList (choose None sd) <> []).
    { rewrite (choose_model2D _ _ H0); simpl.
      unfold has2D in H0. destruct sd as [m|]; [|discriminate].
      destruct (structure2D m) as [q|]; [|discriminate].
      destruct (atoms2 q) eqn:E; simpl in H0; [discriminate|].
      injection H0 as <-. rewrite E; discriminate. }
    rewrite (proj1 (derive_isFallback _ _ Hne)), (choose_model2D _ _ H0).
    reflexivity.
  - rewrite derive_nodes, (choose_projection _ _ H0 H1); reflexivity.
  - assert (Hne : atomsList (choose None sd) <> []).
    { rewrite (choose_projection _ _ H0 H1); simpl.
      unfold has3D in H1. destruct sd as [q|]; [|discriminate].
      destruct (atoms q) eqn:E; simpl in H1; [discriminate|].
      injection H1 as <-. rewrite E; discriminate. }
    rewrite (proj2 (derive_isFallback _ _ Hne)), (choose_projection _ _ H0 H1).
    reflexivity.
  - assert (Hne : atomsList (choose None sd) <> []).
    { rewrite (choose_projection _ _ H0 H1); simpl.
      unfold has3D in H1. destruct sd as [q|]; [|discriminate].
      destruct (atoms q) eqn:E; simpl in H1; [discriminate|].
      injection H1 as <-. rewrite E; discriminate. }
    rewrite (proj1 (derive_isFallback _ _ Hne)), (choose_projection _ _ H0 H1).
    reflexivity.
  - unfold derive. rewrite (choose_nothing _ H0 H1). reflexivity.
Qed.

(** C1, at the input where the code departs from it.  The fetched layout is
    present but holds no atom, and the model provides a 2D layout of two
    atoms: the first branch is taken on the presence of the fetched layout
    alone, so the selected atom list is empty and the view is the
    placeholder, although the model's layout has atoms. *)
Theorem resolver_empty_fetched_layout_shadows_model :
  has2D (Some Samples.sampleStructure)
    = Some (mkStructure2D [Samples.carbon2D; Samples.oxygen2D] [Samples.doubleBond]) /\
  derive (Some Samples.emptyLayout) (Some Samples.sampleStructure)
    = emptyDerived /\
  render (Some Samples.emptyLayout) false (Some Samples.sampleStructure)
         (mkTransform 1 0 0)
    = Placeholder (js "Structure unavailable") /\
  nodes (derive None (Some Samples.sampleStructure)) = [Samples.carbon2D; Samples.oxygen2D].
Proof. repeat split. Qed.

End Resolver.

(** ** The 3D scene builder *)

Section Scene3D.
Import Viewer3D.

(** C5, at the input where the code departs from it.  The 3D view reads
    [nodes[conn[1]].pos] without a test: with one atom and a bond from
    index 0 to index 5, the render throws a [TypeError] instead of skipping
    the bond.  (The 2D view, on the same bond, returns the [null] element:
    [renderBond_dangling].) *)
Theorem scene3D_dangling_bond_throws :
  render (Some Samples.sampleStructure)
    = Throws (TypeError_read (js "undefined") (js "pos")) /\
  Viewer2D.renderBond (Viewer2D.project [Samples.carbon3D]) 3 Samples.danglingBond
    = None.
Proof. split; reflexivity. Qed.

End Scene3D.

(** ** The external structure fetcher *)

Section StaleFetch.
Import Fetcher.

Lemma resolve_parsed s i d :
  isInFlight i s = true -> pubChemData (resolve i (Parsed d) s) = Some d.
Proof. unfold resolve; intros ->; reflexivity. Qed.

Lemma effect_keeps_inFlight s i :
  isInFlight i s = true -> isInFlight i (effect s) = true.
Proof.
  unfold effect, isInFlight; intro H.
  destruct (moleculeName s); [exact H|]; simpl.
  rewrite existsb_app, H; reflexivity.
Qed.

Lemma effect_clears s :
  moleculeName s <> [] -> pubChemData (effect s) = None.
Proof. unfold effect; destruct (moleculeName s); [congruence | reflexivity]. Qed.

(** C4, as the code has it.  A request that is still in flight when it
    settles with a parsed record sets the displayed layout to that record,
    whatever name it was issued for.  A change to another, non-empty name
    clears the displayed layout as the new request is issued, and leaves
    the earlier request in flight; when that earlier request then settles
    with a record, the record is displayed under the new name. *)
Theorem fetch_result_applied_whatever_the_name s i d n
  (Hflight : isInFlight i s = true)
  (Hname : n <> [])
  (Hchange : str_eqb n (moleculeName s) = false) :
  pubChemData (step s (Resolve i (Parsed d))) = Some d /\
  pubChemData (step s (NameChange n)) = None /\
  moleculeName (step (step s (NameChange n)) (Resolve i (Parsed d))) = n /\
  pubChemData (step (step s (NameChange n)) (Resolve i (Parsed d))) = Some d.
Proof.
  assert (Hname' : moleculeName (step s (NameChange n)) = n).
  { simpl; rewrite Hchange. unfold effect; simpl.
    destruct n; [congruence | reflexivity]. }
  assert (Hfl' : isInFlight i (step s (NameChange n)) = true).
  { simpl; rewrite Hchange. apply effect_keeps_inFlight; exact Hflight. }
  set (s' := step s (NameChange n)) in *.
  repeat split.
  - apply resolve_parsed; exact Hflight.
  - unfold s'; simpl; rewrite Hchange. apply effect_clears; exact Hname.
  - change (moleculeName (resolve i (Parsed d) s') = n).
    unfold resolve; rewrite Hfl'; exact Hname'.
  - apply resolve_parsed; exact Hfl'.
Qed.

Lemma fetch_result_applied_whatever_the_name_witness :
  isInFlight 0 (mount Samples.aspirin) = true /\
  Samples.caffeine <> [] /\
  str_eqb Samples.caffeine (moleculeName (mount Samples.aspirin)) = false /\
  pubChemData (step (step (mount Samples.aspirin) (NameChange Samples.caffeine))
                    (Resolve 0 (Parsed Samples.aspirinLayout)))
    = Some Samples.aspirinLayout.
Proof.
  split; [reflexivity|]. split; [discriminate|]. split; [reflexivity|].
  apply (fetch_result_applied_whatever_the_name
           (mount Samples.aspirin) 0 Samples.aspirinLayout Samples.caffeine);
    [reflexivity | discriminate | reflexivity].
Defined.

(** C4 as stated fails: the name goes from aspirin to caffeine while
    request 0, issued for aspirin, is in flight; request 1, for caffeine, is
    issued; request 0 then settles with the aspirin layout, and that layout
    becomes the displayed one although the current name is caffeine. *)
Lemma stale_fetch_result_is_displayed :
  nameOf 0 Samples.switched = Some Samples.aspirin /\
  nameOf 1 Samples.switched = Some Samples.caffeine /\
  pubChemData Samples.switched = None /\
  moleculeName Samples.switchedThenStale = Samples.caffeine /\
  Samples.aspirin <> Samples.caffeine /\
  pubChemData Samples.switchedThenStale = Some Samples.aspirinLayout.
Proof. repeat split; discriminate. Qed.

End StaleFetch.

(** ** The comparison engine *)

Section Compare.
Import ComparisonEngine.

Lemma trimStart_nil s : trimStart s = [] <-> forallb isWhiteSpace s = true.
Proof.
  induction s as [|c s IH]; simpl; [tauto|].
  destruct (isWhiteSpace c); simpl; [exact IH|].
  split; discriminate.
Qed.

Lemma trimStart_all_or_same s :
  trimStart s = [] \/ exists c r, trimStart s = c :: r /\ isWhiteSpace c = false.
Proof.
  induction s as [|c s IH]; simpl; [left; reflexivity|].
  destruct (isWhiteSpace c) eqn:E; [exact IH|].
  right; exists c, s; auto.
Qed.

Lemma forallb_rev {A} (f : A -> bool) l : forallb f (rev l) = forallb f l.
Proof.
  induction l as [|a l IH]; simpl; [reflexivity|].
  rewrite forallb_app, IH; simpl. rewrite andb_true_r. apply andb_comm.
Qed.

(** [!s.trim()] holds exactly of the strings made of white space only,
    the empty one included. *)
Lemma blank_iff s : blank s = true <-> forallb isWhiteSpace s = true.
Proof.
  unfold blank, trim, trimEnd.
  split.
  - intro H.
    destruct (rev (trimStart (rev (trimStart s)))) eqn:E; [|discriminate].
    apply (f_equal (@rev N)) in E; rewrite rev_involutive in E; simpl in E.
    apply trimStart_nil in E. rewrite forallb_rev in E.
    destruct (trimStart_all_or_same s) as [H0 | [c [r [H0 Hc]]]].
    + apply trimStart_nil; exact H0.
    + rewrite H0 in E; simpl in E. rewrite Hc in E; discriminate.
  - intro H. apply trimStart_nil in H. rewrite H; reflexivity.
Qed.

(** C10.  When one of the two inputs is empty or made of white space only,
    [handleCompare] returns at once: the cells [loading], [error] and
    [data] (the whole state) are as before, and nothing is added to the
    trace of calls, so neither request is issued and nothing is logged. *)
Theorem handleCompare_blank_is_noop env s log
  (Hblank : forallb isWhiteSpace (mol1 s) = true \/
            forallb isWhiteSpace (mol2 s) = true) :
  handleCompare env (s, log) = (Returns tt, (s, log)).
Proof.
  unfold handleCompare; simpl.
  destruct Hblank as [H | H]; apply blank_iff in H; rewrite H.
  - reflexivity.
  - rewrite orb_true_r; reflexivity.
Qed.

Lemma handleCompare_blank_is_noop_witness :
  (forallb isWhiteSpace (mol1 Samples.blankForm) = true \/
   forallb isWhiteSpace (mol2 Samples.blankForm) = true) /\
  handleCompare Samples.rejectingSecond (Samples.blankForm, [])
    = (Returns tt, (Samples.blankForm, [])).
Proof.
  split; [left; reflexivity|].
  apply (handleCompare_blank_is_noop Samples.rejectingSecond Samples.blankForm []).
  left; reflexivity.
Defined.

(** The calls one run of [handleCompare] adds to the trace. *)
Lemma comparison_only_after_validation env s a b :
  In (ComparisonRequest a b) (snd (snd (handleCompare env (s, [])))) ->
  exists validation,
    validateComparisonInputs env (mol1 s) (mol2 s) = Returns validation /\
    readFlags validation = Returns (true, true) /\
    exists rest,
      snd (snd (handleCompare env (s, [])))
        = ValidationRequest (mol1 s) (mol2 s)
          :: ComparisonRequest (mol1 s) (mol2 s) :: rest.
Proof.
  unfold handleCompare; simpl.
  destruct (blank (mol1 s) || blank (mol2 s)); simpl; [tauto|].
  unfold tryFinally, tryCatch, bindM, setLoading, setError, setData, modify,
    emit, lift; simpl.
  destruct (validateComparisonInputs env (mol1 s) (mol2 s)) as [v|e] eqn:Ev;
    simpl.
  2:{ intros [H|[H|[]]]; discriminate. }
  destruct (readFlags v) as [[f1 f2]|e] eqn:Ef; simpl.
  2:{ intros [H|[H|[]]]; discriminate. }
  destruct f1, f2; simpl;
    try (intros [H|[]]; discriminate).
  intro H. exists v. split; [reflexivity|]. split; [exact Ef|].
  destruct (compareMoleculesText env (mol1 s) (mol2 s)) as [r|e]; simpl.
  - destruct (getProp r (js "molecule1")); simpl.
    + destruct (getProp r (js "molecule2")); simpl; eexists; reflexivity.
    + eexists; reflexivity.
  - eexists; reflexivity.
Qed.

(** C7, as the code has it.  With two non-blank inputs and a validation
    answer whose first flag is truthy and second flag falsy, [handleCompare]
    ends with [loading] false, no data, and the error
    [Invalid Input: "<second input>" is not a recognized molecule or valid
    structure format.]; the one call it makes is the validation request.
    And in any run, a comparison request is made only after the validation
    request, on an answer whose two flags are truthy. *)
Theorem handleCompare_second_input_invalid env s log validation
  (H1 : blank (mol1 s) = false)
  (H2 : blank (mol2 s) = false)
  (Hanswer : validateComparisonInputs env (mol1 s) (mol2 s) = Returns validation)
  (Hflags : readFlags validation = Returns (true, false)) :
  handleCompare env (s, log)
    = (Returns tt,
       (mkState (mol1 s) (mol2 s) false
          (Some (js "Invalid Input: " ++ dquote ++ mol2 s ++ dquote
                 ++ js " is not a recognized molecule or valid structure format."))
          None,
        log ++ [ValidationRequest (mol1 s) (mol2 s)])) /\
  (forall env' s' a b,
      In (ComparisonRequest a b) (snd (snd (handleCompare env' (s', [])))) ->
      exists v rest,
        validateComparisonInputs env' (mol1 s') (mol2 s') = Returns v /\
        readFlags v = Returns (true, true) /\
        snd (snd (handleCompare env' (s', [])))
          = ValidationRequest (mol1 s') (mol2 s')
            :: ComparisonRequest (mol1 s') (mol2 s') :: rest).
Proof.
  split.
  - unfold handleCompare; simpl. rewrite H1, H2; simpl.
    unfold tryFinally, tryCatch, bindM, setLoading, setError, setData, modify,
      emit, lift; simpl.
    rewrite Hanswer; simpl. rewrite Hflags; simpl. reflexivity.
  - intros env' s' a b Hin.
    destruct (comparison_only_after_validation env' s' a b Hin)
      as [v [Hv [Hf [rest Hr]]]].
    exists v, rest; auto.
Qed.

Lemma handleCompare_second_input_invalid_witness :
  blank (mol1 Samples.filledForm) = false /\
  blank (mol2 Samples.filledForm) = false /\
  validateComparisonInputs Samples.rejectingSecond
    (mol1 Samples.filledForm) (mol2 Samples.filledForm)
    = Returns Samples.secondInvalid /\
  readFlags Samples.secondInvalid = Returns (true, false) /\
  error (fst (snd (handleCompare Samples.rejectingSecond (Samples.filledForm, []))))
    = Some (js "Invalid Input: " ++ dquote ++ Samples.unknownName ++ dquote
            ++ js " is not a recognized molecule or valid structure format.").
Proof.
  split; [reflexivity|]. split; [reflexivity|]. split; [reflexivity|].
  split; [reflexivity|].
  rewrite (proj1 (handleCompare_second_input_invalid Samples.rejectingSecond
                    Samples.filledForm [] Samples.secondInvalid
                    eq_refl eq_refl eq_refl eq_refl)).
  reflexivity.
Defined.

(** C7 as stated fails on the text of the message: for the inputs
    [aspirin] and [xyz123notamolecule], the second one rejected, the error
    shown is not the sentence naming the input alone; it is that sentence
    after the prefix [Invalid Input: ].  No comparison request is made. *)
Lemma second_input_invalid_message_has_prefix :
  error (fst (snd (handleCompare Samples.rejectingSecond (Samples.filledForm, []))))
    <> Some (notRecognized Samples.unknownName) /\
  error (fst (snd (handleCompare Samples.rejectingSecond (Samples.filledForm, []))))
    = Some (js "Invalid Input: " ++ notRecognized Samples.unknownName) /\
  snd (snd (handleCompare Samples.rejectingSecond (Samples.filledForm, [])))
    = [ValidationRequest Samples.aspirin Samples.unknownName].
Proof. split; [discriminate|]. split; reflexivity. Qed.

End Compare.

(** ** The model-response parser *)

Section ParseJSON.
Import GeminiService.

Lemma removeAll_fence_match s :
  removeAll fence (96 :: 96 :: 96 :: s)%N = removeAll fence s.
Proof. reflexivity. Qed.

Lemma removeAll_fence_keep c s :
  startsWith fence (c :: s) = false ->
  removeAll fence (c :: s) = c :: removeAll fence s.
Proof.
  intro H. unfold removeAll.
  change (removeAllFrom fence 0 (c :: s))
    with (if startsWith fence (c :: s)
          then removeAllFrom fence (pred (List.length fence)) s
          else c :: removeAllFrom fence 0 s).
  rewrite H; reflexivity.
Qed.

(** A string starts with the fence, or its first unit survives the pass. *)
Lemma fence_cases s :
  s = [] \/
  (exists r, s = (96 :: 96 :: 96 :: r)%N) \/
  (exists c r, s = c :: r /\ startsWith fence s = false).
Proof.
  destruct s as [|c r]; [left; reflexivity|].
  destruct (startsWith fence (c :: r)) eqn:E.
  - right; left.
    change (N.eqb 96 c && startsWith [96%N; 96%N] r = true) in E.
    apply andb_true_iff in E as [E0 E].
    apply N.eqb_eq in E0; subst c.
    destruct r as [|c1 r]; [discriminate|].
    change (N.eqb 96 c1 && startsWith [96%N] r = true) in E.
    apply andb_true_iff in E as [E1 E].
    apply N.eqb_eq in E1; subst c1.
    destruct r as [|c2 r]; [discriminate|].
    change (N.eqb 96 c2 && true = true) in E.
    apply andb_true_iff in E as [E2 _].
    apply N.eqb_eq in E2; subst c2.
    exists r; reflexivity.
  - right; right; exists c, r; auto.
Qed.

Lemma removed_head_backtick s :
  startsWith [96%N] (removeAll fence s) = true -> startsWith [96%N] s = true.
Proof.
  destruct (fence_cases s) as [-> | [[r ->] | [c [r [-> Hk]]]]]; intro H.
  - exact H.
  - reflexivity.
  - rewrite (removeAll_fence_keep _ _ Hk) in H. exact H.
Qed.

Lemma removed_head_two_backticks s :
  startsWith [96%N; 96%N] (removeAll fence s) = true ->
  startsWith [96%N; 96%N] s = true.
Proof.
  destruct (fence_cases s) as [-> | [[r ->] | [c [r [-> Hk]]]]]; intro H.
  - exact H.
  - reflexivity.
  - rewrite (removeAll_fence_keep _ _ Hk) in H.
    simpl in H. apply andb_true_iff in H as [Hc Hr].
    assert (Hr' : startsWith [96%N] (removeAll fence r) = true).
    { destruct (removeAll fence r); [discriminate|]. exact Hr. }
    apply removed_head_backtick in Hr'.
    simpl. rewrite Hc; simpl.
    destruct r; [discriminate|]. exact Hr'.
Qed.

Lemma removeAll_fence_free_upto n :
  forall s, (List.length s <= n)%nat -> includes fence (removeAll fence s) = false.
Proof.
  induction n as [|n IH]; intros s Hlen.
  - destruct s; [reflexivity | simpl in Hlen; lia].
  - destruct (fence_cases s) as [-> | [[r ->] | [c [r [-> Hk]]]]].
    + reflexivity.
    + rewrite removeAll_fence_match. apply IH. simpl in Hlen; lia.
    + rewrite (removeAll_fence_keep _ _ Hk).
      assert (Hrest : includes fence (removeAll fence r) = false)
        by (apply IH; simpl in Hlen; lia).
      change (includes fence (c :: removeAll fence r))
        with (startsWith fence (c :: removeAll fence r)
              || includes fence (removeAll fence r)).
      rewrite Hrest, orb_false_r.
      destruct (startsWith fence (c :: removeAll fence r)) eqn:E; [|reflexivity].
      exfalso.
      change (startsWith fence (c :: removeAll fence r))
        with (N.eqb 96 c && startsWith [96%N; 96%N] (removeAll fence r)) in E.
      apply andb_true_iff in E as [Hc H2].
      apply removed_head_two_backticks in H2.
      change (startsWith fence (c :: r))
        with (N.eqb 96 c && startsWith [96%N; 96%N] r) in Hk.
      rewrite Hc, H2 in Hk; discriminate.
Qed.

(** After the second replacement no fence is left. *)
Lemma removeAll_fence_free s : includes fence (removeAll fence s) = false.
Proof. apply (removeAll_fence_free_upto (List.length s)); lia. Qed.

Lemma startsWith_app p a b :
  startsWith p a = true -> startsWith p (a ++ b) = true.
Proof.
  revert a; induction p as [|x p IH]; intros a H; [reflexivity|].
  destruct a as [|y a]; [discriminate|]. simpl in *.
  apply andb_true_iff in H as [Hx Hp]. rewrite Hx; simpl. apply IH, Hp.
Qed.

Lemma includes_app_l p a b :
  includes p a = true -> includes p (a ++ b) = true.
Proof.
  induction a as [|y a IH]; intro H.
  - simpl in H. rewrite orb_false_r in H.
    destruct p; [|discriminate]. destruct b; reflexivity.
  - change (startsWith p (y :: a) || includes p a = true) in H.
    change (startsWith p ((y :: a) ++ b) || includes p (a ++ b) = true).
    apply orb_true_iff in H as [H | H]; apply orb_true_iff.
    + left; apply startsWith_app, H.
    + right; apply IH, H.
Qed.

Lemma includes_app_r p a b :
  includes p b = true -> includes p (a ++ b) = true.
Proof.
  intro H; induction a as [|y a IH]; [exact H|].
  change (startsWith p (y :: a ++ b) || includes p (a ++ b) = true).
  rewrite IH; apply orb_true_r.
Qed.

Lemma trimStart_suffix s : exists w, s = w ++ trimStart s.
Proof.
  induction s as [|c s [w Hw]]; [exists []; reflexivity|].
  simpl. destruct (isWhiteSpace c).
  - exists (c :: w). simpl. rewrite <- Hw. reflexivity.
  - exists []. reflexivity.
Qed.

Lemma trimEnd_prefix s : exists w, s = trimEnd s ++ w.
Proof.
  unfold trimEnd. destruct (trimStart_suffix (rev s)) as [w Hw].
  exists (rev w).
  rewrite <- rev_app_distr, <- Hw, rev_involutive. reflexivity.
Qed.

(** Trimming keeps a fence-free text fence-free. *)
Lemma trim_includes p s : includes p (trim s) = true -> includes p s = true.
Proof.
  unfold trim; intro H.
  destruct (trimEnd_prefix (trimStart s)) as [w Hw].
  destruct (trimStart_suffix s) as [v Hv].
  rewrite Hv. apply includes_app_r. rewrite Hw. apply includes_app_l, H.
Qed.

Lemma cleaned_fence_free text : includes fence (cleaned text) = false.
Proof.
  unfold cleaned.
  destruct (includes fence (trim (removeAll fence (removeAll fenceJson text))))
    eqn:E; [|reflexivity].
  apply trim_includes in E. rewrite removeAll_fence_free in E. discriminate.
Qed.

Lemma removeAll_keep p c s :
  startsWith p (c :: s) = false -> removeAll p (c :: s) = c :: removeAll p s.
Proof.
  intro H. unfold removeAll.
  change (removeAllFrom p 0 (c :: s))
    with (if startsWith p (c :: s)
          then removeAllFrom p (pred (List.length p)) s
          else c :: removeAllFrom p 0 s).
  rewrite H; reflexivity.
Qed.

Lemma includes_cons_false p c s :
  includes p (c :: s) = false ->
  startsWith p (c :: s) = false /\ includes p s = false.
Proof.
  change (includes p (c :: s)) with (startsWith p (c :: s) || includes p s).
  apply orb_false_iff.
Qed.

(** Deleting a pattern that does not occur changes nothing. *)
Lemma removeAll_absent p s : includes p s = false -> removeAll p s = s.
Proof.
  induction s as [|c s IH]; intro H; [reflexivity|].
  apply includes_cons_false in H as [Hs Hi].
  rewrite (removeAll_keep p c s Hs), (IH Hi). reflexivity.
Qed.

Lemma startsWith_prefix p q s :
  startsWith (p ++ q) s = true -> startsWith p s = true.
Proof.
  revert s; induction p as [|x p IH]; intros s H; [reflexivity|].
  destruct s as [|y s]; [discriminate|]. simpl in *.
  apply andb_true_iff in H as [Hx Hp]. rewrite Hx; simpl. apply IH, Hp.
Qed.

Lemma includes_prefix p q s :
  includes (p ++ q) s = true -> includes p s = true.
Proof.
  induction s as [|c s IH]; intro H.
  - simpl in H. rewrite orb_false_r in H.
    apply startsWith_prefix in H. simpl. rewrite H. reflexivity.
  - change (startsWith (p ++ q) (c :: s) || includes (p ++ q) s = true) in H.
    change (startsWith p (c :: s) || includes p s = true).
    apply orb_true_iff in H as [H | H]; apply orb_true_iff.
    + left; apply (startsWith_prefix p q), H.
    + right; apply IH, H.
Qed.

Lemma fenceJson_absent s : includes fence s = false -> includes fenceJson s = false.
Proof.
  intro H. destruct (includes fenceJson s) eqn:E; [|reflexivity].
  change fenceJson with (fence ++ js "json") in E.
  apply includes_prefix in E. congruence.
Qed.

(** White space holds no backtick. *)
Lemma whitespace_not_backtick c : isWhiteSpace c = true -> N.eqb 96 c = false.
Proof.
  intro H. destruct (N.eqb_spec 96 c) as [<- | Hne]; [discriminate H | reflexivity].
Qed.

(** A scan for a pattern that starts with a backtick keeps a prefix of white
    space as it is. *)
Lemma removeAll_after_whitespace p' pre s :
  forallb isWhiteSpace pre = true ->
  removeAll (96%N :: p') (pre ++ s) = pre ++ removeAll (96%N :: p') s.
Proof.
  induction pre as [|c pre IH]; intro H; [reflexivity|].
  simpl in H. apply andb_true_iff in H as [Hc Hpre].
  change ((c :: pre) ++ s) with (c :: (pre ++ s)).
  rewrite removeAll_keep.
  - rewrite (IH Hpre). reflexivity.
  - change (N.eqb 96 c && startsWith p' (pre ++ s) = false).
    rewrite (whitespace_not_backtick c Hc). reflexivity.
Qed.

Lemma removeAll_whitespace p' s :
  forallb isWhiteSpace s = true -> removeAll (96%N :: p') s = s.
Proof.
  intro H. pose proof (removeAll_after_whitespace p' s [] H) as E.
  change (removeAll (96%N :: p') []) with (@nil N) in E.
  rewrite !app_nil_r in E. exact E.
Qed.

(** A text that does not start with a fence and does not end with a
    backtick does not start with a fence whatever follows it. *)
Lemma no_fence_across c r b :
  startsWith fence (c :: r) = false -> last (c :: r) 0%N <> 96%N ->
  startsWith fence ((c :: r) ++ b) = false.
Proof.
  intros Hs Hl.
  change (N.eqb 96 c && startsWith [96%N; 96%N] (r ++ b) = false).
  change (N.eqb 96 c && startsWith [96%N; 96%N] r = false) in Hs.
  destruct (N.eqb_spec 96 c) as [<- | Hc]; [|reflexivity].
  simpl andb in *.
  destruct r as [|d r]; [exfalso; apply Hl; reflexivity|].
  change (N.eqb 96 d && startsWith [96%N] (r ++ b) = false).
  change (N.eqb 96 d && startsWith [96%N] r = false) in Hs.
  destruct (N.eqb_spec 96 d) as [<- | Hd]; [|reflexivity].
  simpl andb in *.
  destruct r as [|e r]; [exfalso; apply Hl; reflexivity|].
  change (N.eqb 96 e && true = false).
  change (N.eqb 96 e && true = false) in Hs.
  exact Hs.
Qed.

Lemma last_tail c r : r <> [] -> last (c :: r) 0%N = last r 0%N.
Proof. destruct r; [congruence | reflexivity]. Qed.

Lemma last_tail_not_backtick c r :
  last (c :: r) 0%N <> 96%N -> last r 0%N <> 96%N.
Proof.
  destruct r as [|d r]; [intros _; discriminate|].
  rewrite last_tail by discriminate. auto.
Qed.

Lemma json_after_whitespace post :
  forallb isWhiteSpace post = true -> startsWith (js "json") post = false.
Proof.
  destruct post as [|c post]; [reflexivity|]. simpl forallb. intro H.
  apply andb_true_iff in H as [Hc _].
  change (N.eqb 106 c && startsWith (js "son") post = false).
  destruct (N.eqb_spec 106 c) as [<- | Hne]; [discriminate Hc | reflexivity].
Qed.

Lemma backtick_after_whitespace p' post :
  forallb isWhiteSpace post = true -> startsWith (96%N :: p') post = false.
Proof.
  destruct post as [|c post]; [reflexivity|]. simpl forallb. intro H.
  apply andb_true_iff in H as [Hc _].
  change (N.eqb 96 c && startsWith p' post = false).
  rewrite (whitespace_not_backtick c Hc). reflexivity.
Qed.

(** The first replacement leaves a closing fence followed by white space. *)
Lemma removeAll_fenceJson_closing post :
  forallb isWhiteSpace post = true ->
  removeAll fenceJson (fence ++ post) = fence ++ post.
Proof.
  intro H.
  change (fence ++ post) with (96%N :: 96%N :: 96%N :: post).
  rewrite removeAll_keep.
  2:{ change (startsWith (js "json") post = false). apply json_after_whitespace, H. }
  rewrite removeAll_keep.
  2:{ change (startsWith (96%N :: js "json") post = false).
      apply backtick_after_whitespace, H. }
  rewrite removeAll_keep.
  2:{ change (startsWith (96%N :: 96%N :: js "json") post = false).
      apply backtick_after_whitespace, H. }
  change fenceJson with (96%N :: 96%N :: 96%N :: js "json").
  rewrite (removeAll_whitespace _ post H). reflexivity.
Qed.

(** A scan for a pattern that starts with the fence keeps a fence-free
    prefix that does not end with a backtick. *)
Lemma removeAll_after_text p' body rest :
  includes fence body = false -> last body 0%N <> 96%N ->
  removeAll (fence ++ p') (body ++ rest) = body ++ removeAll (fence ++ p') rest.
Proof.
  induction body as [|c r IH]; intros Hinc Hlast; [reflexivity|].
  apply includes_cons_false in Hinc as [Hs Hi].
  change ((c :: r) ++ rest) with (c :: (r ++ rest)).
  rewrite removeAll_keep.
  - rewrite (IH Hi (last_tail_not_backtick c r Hlast)). reflexivity.
  - destruct (startsWith (fence ++ p') (c :: r ++ rest)) eqn:E; [|reflexivity].
    apply startsWith_prefix in E.
    change (c :: r ++ rest) with ((c :: r) ++ rest) in E.
    rewrite (no_fence_across c r _ Hs Hlast) in E. discriminate.
Qed.

Lemma includes_app_l_false p a b :
  includes p (a ++ b) = false -> includes p a = false.
Proof.
  intro H. destruct (includes p a) eqn:E; [|reflexivity].
  rewrite (includes_app_l p a b E) in H. discriminate.
Qed.

(** A fence-free text is a text that does not end with a backtick, followed
    by at most two backticks. *)
Lemma trailing_backticks mid :
  includes fence mid = false ->
  exists body ticks,
    mid = body ++ ticks /\ last body 0%N <> 96%N /\
    (ticks = [] \/ ticks = [96%N] \/ ticks = [96%N; 96%N]).
Proof.
  intro Hinc.
  assert (Hlast : forall x l, x <> 96%N -> last (rev (x :: l)) 0%N <> 96%N).
  { intros x l Hx. simpl. rewrite last_last. exact Hx. }
  destruct (rev mid) as [|c1 r1] eqn:E1.
  { exists [], []. apply (f_equal (@rev N)) in E1. rewrite rev_involutive in E1.
    subst mid. split; [reflexivity|]. split; [discriminate | left; reflexivity]. }
  destruct (N.eq_dec c1 96) as [-> | H1].
  2:{ exists mid, []. rewrite app_nil_r. split; [reflexivity|].
      split; [|left; reflexivity].
      rewrite <- (rev_involutive mid), E1. apply Hlast, H1. }
  destruct r1 as [|c2 r2].
  { exists [], [96%N]. apply (f_equal (@rev N)) in E1. rewrite rev_involutive in E1.
    subst mid. split; [reflexivity|].
    split; [discriminate | right; left; reflexivity]. }
  destruct (N.eq_dec c2 96) as [-> | H2].
  2:{ exists (rev (c2 :: r2)), [96%N].
      apply (f_equal (@rev N)) in E1. rewrite rev_involutive in E1.
      split; [exact E1|]. split; [apply Hlast, H2 | right; left; reflexivity]. }
  destruct r2 as [|c3 r3].
  { exists [], [96%N; 96%N]. apply (f_equal (@rev N)) in E1.
    rewrite rev_involutive in E1.
    subst mid. split; [reflexivity|].
    split; [discriminate | right; right; reflexivity]. }
  destruct (N.eq_dec c3 96) as [-> | H3].
  2:{ exists (rev (c3 :: r3)), [96%N; 96%N].
      apply (f_equal (@rev N)) in E1. rewrite rev_involutive in E1.
      split; [rewrite E1; simpl; rewrite <- !app_assoc; reflexivity|].
      split; [apply Hlast, H3 | right; right; reflexivity]. }
  exfalso.
  apply (f_equal (@rev N)) in E1. rewrite rev_involutive in E1.
  assert (Hm : mid = rev r3 ++ fence).
  { rewrite E1. simpl. rewrite <- !app_assoc. reflexivity. }
  rewrite Hm in Hinc.
  rewrite (includes_app_r fence (rev r3) fence eq_refl) in Hinc. discriminate.
Qed.

(** The first replacement leaves the payload and the closing fence. *)
Lemma removeAll_fenceJson_payload post mid :
  forallb isWhiteSpace post = true ->
  includes fence mid = false ->
  removeAll fenceJson (mid ++ fence ++ post) = mid ++ fence ++ post.
Proof.
  intros Hpost Hinc.
  destruct (trailing_backticks mid Hinc) as [body [ticks [-> [Hlast Hticks]]]].
  apply includes_app_l_false in Hinc.
  rewrite <- app_assoc.
  change fenceJson with (fence ++ js "json").
  rewrite (removeAll_after_text (js "json") body _ Hinc Hlast).
  change (fence ++ js "json") with fenceJson.
  f_equal.
  destruct Hticks as [-> | [-> | ->]].
  - apply removeAll_fenceJson_closing, Hpost.
  - change ([96%N] ++ fence ++ post) with (96%N :: (fence ++ post)).
    rewrite removeAll_keep by reflexivity.
    rewrite (removeAll_fenceJson_closing post Hpost). reflexivity.
  - change ([96%N; 96%N] ++ fence ++ post)
      with (96%N :: 96%N :: (fence ++ post)).
    rewrite removeAll_keep by reflexivity.
    rewrite removeAll_keep by reflexivity.
    rewrite (removeAll_fenceJson_closing post Hpost). reflexivity.
Qed.

(** A backtick in front of white space stays. *)
Lemma removeAll_fence_tick post :
  forallb isWhiteSpace post = true ->
  removeAll fence (96%N :: post) = 96%N :: post.
Proof.
  intro Hpost. rewrite removeAll_keep.
  - change fence with (96%N :: [96%N; 96%N]).
    rewrite (removeAll_whitespace _ post Hpost). reflexivity.
  - change (startsWith [96%N; 96%N] post = false).
    apply backtick_after_whitespace, Hpost.
Qed.

(** The second replacement deletes the closing fence and nothing else. *)
Lemma removeAll_fence_payload post mid :
  forallb isWhiteSpace post = true ->
  includes fence mid = false ->
  removeAll fence (mid ++ fence ++ post) = mid ++ post.
Proof.
  intros Hpost Hinc.
  destruct (trailing_backticks mid Hinc) as [body [ticks [-> [Hlast Hticks]]]].
  apply includes_app_l_false in Hinc.
  rewrite <- !app_assoc.
  change fence with (fence ++ []) at 1.
  rewrite (removeAll_after_text [] body _ Hinc Hlast).
  change (fence ++ []) with fence.
  f_equal.
  destruct Hticks as [-> | [-> | ->]].
  - change ([] ++ fence ++ post) with (96%N :: 96%N :: 96%N :: post).
    rewrite removeAll_fence_match.
    change fence with (96%N :: [96%N; 96%N]).
    apply removeAll_whitespace, Hpost.
  - change ([96%N] ++ fence ++ post)
      with (96%N :: 96%N :: 96%N :: (96%N :: post)).
    rewrite removeAll_fence_match.
    apply removeAll_fence_tick, Hpost.
  - change ([96%N; 96%N] ++ fence ++ post)
      with (96%N :: 96%N :: 96%N :: (96%N :: 96%N :: post)).
    rewrite removeAll_fence_match.
    rewrite removeAll_keep.
    + rewrite (removeAll_fence_tick post Hpost). reflexivity.
    + change (startsWith [96%N] post = false).
      apply backtick_after_whitespace, Hpost.
Qed.

Lemma trimStart_after_whitespace pre s :
  forallb isWhiteSpace pre = true -> trimStart (pre ++ s) = trimStart s.
Proof.
  induction pre as [|c pre IH]; intro H; [reflexivity|].
  simpl in H. apply andb_true_iff in H as [Hc Hpre].
  simpl. rewrite Hc. apply IH, Hpre.
Qed.

Lemma trimStart_app_kept a b c r :
  trimStart a = c :: r -> trimStart (a ++ b) = (c :: r) ++ b.
Proof.
  induction a as [|x a IH]; intro H; [discriminate|].
  simpl in *. destruct (isWhiteSpace x).
  - apply IH, H.
  - injection H as <- <-. reflexivity.
Qed.

Lemma trimEnd_before_whitespace s post :
  forallb isWhiteSpace post = true -> trimEnd (s ++ post) = trimEnd s.
Proof.
  intro H. unfold trimEnd. rewrite rev_app_distr.
  rewrite trimStart_after_whitespace by (rewrite forallb_rev; exact H).
  reflexivity.
Qed.

(** White space around a text does not change what trimming it gives. *)
Lemma trim_between_whitespace pre mid post :
  forallb isWhiteSpace pre = true -> forallb isWhiteSpace post = true ->
  trim (pre ++ mid ++ post) = trim mid.
Proof.
  intros Hpre Hpost. unfold trim.
  rewrite (trimStart_after_whitespace pre _ Hpre).
  destruct (trimStart mid) as [|c r] eqn:E.
  - apply trimStart_nil in E.
    assert (Hall : forallb isWhiteSpace (mid ++ post) = true)
      by (rewrite forallb_app, E, Hpost; reflexivity).
    apply trimStart_nil in Hall. rewrite Hall. reflexivity.
  - rewrite (trimStart_app_kept mid post c r E).
    apply trimEnd_before_whitespace, Hpost.
Qed.

(** A model answer wrapped in a [```json] fence is cleaned to what stands
    between the fences, trimmed. *)
Lemma cleaned_wrapped pre mid post :
  forallb isWhiteSpace pre = true -> forallb isWhiteSpace post = true ->
  includes fence mid = false ->
  cleaned (pre ++ fenceJson ++ mid ++ fence ++ post) = trim mid.
Proof.
  intros Hpre Hpost Hinc. unfold cleaned.
  change fenceJson with (96%N :: [96%N; 96%N] ++ js "json") at 1.
  rewrite (removeAll_after_whitespace _ pre _ Hpre).
  change (removeAll (96%N :: [96%N; 96%N] ++ js "json")
            (fenceJson ++ mid ++ fence ++ post))
    with (removeAll fenceJson (mid ++ fence ++ post)).
  rewrite (removeAll_fenceJson_payload post mid Hpost Hinc).
  change fence with (96%N :: [96%N; 96%N]) at 1.
  rewrite (removeAll_after_whitespace _ pre _ Hpre).
  change (removeAll (96%N :: [96%N; 96%N]) (mid ++ fence ++ post))
    with (removeAll fence (mid ++ fence ++ post)).
  rewrite (removeAll_fence_payload post mid Hpost Hinc).
  apply trim_between_whitespace; assumption.
Qed.

(** Without any fence the cleaning is the trimming. *)
Lemma cleaned_without_fence text :
  includes fence text = false -> cleaned text = trim text.
Proof.
  intro H. unfold cleaned.
  rewrite (removeAll_absent fenceJson text (fenceJson_absent text H)).
  rewrite (removeAll_absent fence text H). reflexivity.
Qed.

(** The fenced sample is cleaned to its payload. *)
Lemma cleaned_sample : cleaned Samples.fencedAnswer = Samples.payload.
Proof. reflexivity. Qed.

(** C8.  Whatever [JSON.parse] does, [parseJSON] returns a value for every
    text and never throws.  The text it hands to [JSON.parse] is the input
    with the [```json] and then the [```] fences deleted and the result
    trimmed: it holds no fence; it is the input trimmed when the input holds
    no fence; and for an answer wrapped in fences (white space, [```json],
    a payload that holds no fence, [```], white space) it is the payload
    trimmed, so the payload is what reaches [JSON.parse].  When [JSON.parse] returns a value on that text, [parseJSON]
    returns this value; when it throws, [parseJSON] returns the empty
    object. *)
Theorem parseJSON_never_throws (JSON_parse : jsstring -> outcome json)
                               (text : jsstring) :
  (exists v, parseJSON JSON_parse text = Returns v) /\
  cleaned text = trim (removeAll fence (removeAll fenceJson text)) /\
  includes fence (cleaned text) = false /\
  (includes fence text = false -> cleaned text = trim text) /\
  (forall pre mid post,
     forallb isWhiteSpace pre = true -> forallb isWhiteSpace post = true ->
     includes fence mid = false ->
     text = pre ++ fenceJson ++ mid ++ fence ++ post ->
     cleaned text = trim mid /\
     parseJSON JSON_parse text
       = try_catch (JSON_parse (trim mid)) (fun _ => Returns empty_object)) /\
  (forall v, JSON_parse (cleaned text) = Returns v ->
             parseJSON JSON_parse text = Returns v) /\
  (forall e, JSON_parse (cleaned text) = Throws e ->
             parseJSON JSON_parse text = Returns empty_object).
Proof.
  unfold parseJSON.
  split; [|split; [reflexivity | split; [apply cleaned_fence_free | split;
           [apply cleaned_without_fence | split; [|split]]]]].
  - destruct (JSON_parse (cleaned text)); simpl; eexists; reflexivity.
  - intros pre mid post Hpre Hpost Hinc ->.
    rewrite (cleaned_wrapped pre mid post Hpre Hpost Hinc). auto.
  - intros v ->; reflexivity.
  - intros e ->; reflexivity.
Qed.

Lemma parseJSON_never_throws_witness :
  Samples.fencedAnswer
    = [] ++ fenceJson ++ ([10%N] ++ Samples.payload ++ [10%N]) ++ fence ++ [] /\
  includes fence ([10%N] ++ Samples.payload ++ [10%N]) = false /\
  cleaned Samples.fencedAnswer = Samples.payload /\
  parseJSON Samples.toyParse Samples.fencedAnswer
    = Returns (JArray [JNumber 1; JNumber 2]).
Proof.
  split; [reflexivity|]. split; [reflexivity|].
  exact (proj1 (proj2 (proj2 (proj2 (proj2
           (parseJSON_never_throws Samples.toyParse Samples.fencedAnswer)))))
           [] ([10%N] ++ Samples.payload ++ [10%N]) []
           eq_refl eq_refl eq_refl eq_refl).
Defined.

(** The parser at work on the fenced sample and on a text that is no JSON. *)
Lemma parseJSON_samples :
  parseJSON Samples.toyParse Samples.fencedAnswer
    = Returns (JArray [JNumber 1; JNumber 2]) /\
  parseJSON Samples.toyParse (js "I cannot answer") = Returns empty_object.
Proof. split; reflexivity. Qed.

End ParseJSON.

(** ** The geometry normalizer *)

Section Normalizer.
Import Viewer3D.

Lemma squares_nonneg a b c : 0 <= a * a + b * b + c * c.
Proof.
  pose proof (Rle_0_sqr a); pose proof (Rle_0_sqr b); pose proof (Rle_0_sqr c).
  unfold Rsqr in *; lra.
Qed.

Lemma distanceToSquared_nonneg u v : 0 <= distanceToSquared u v.
Proof. unfold distanceToSquared; simpl; apply squares_nonneg. Qed.

Lemma distanceTo_nonneg u v : 0 <= distanceTo u v.
Proof. apply sqrt_pos. Qed.

(** Scaling about the centroid scales the distances. *)
Lemma distance_normalized c s p :
  0 <= s -> distanceTo (normalize c s p) zero = s * distanceTo p c.
Proof.
  intro Hs. unfold distanceTo.
  replace (distanceToSquared (normalize c s p) zero)
    with ((s * s) * distanceToSquared p c).
  - rewrite sqrt_mult;
      [| apply Rmult_le_pos; exact Hs | apply distanceToSquared_nonneg].
    rewrite sqrt_square; [reflexivity | exact Hs].
  - unfold distanceToSquared, normalize, multiplyScalar, sub, zero; simpl; ring.
Qed.

Lemma maxDistFrom_fold c ps : maxDistFrom c ps = fold_left (farther c) ps 0.
Proof. reflexivity. Qed.

Lemma fold_farther_bounds c ps : forall acc,
  acc <= fold_left (farther c) ps acc /\
  Forall (fun p => distanceTo p c <= fold_left (farther c) ps acc) ps.
Proof.
  induction ps as [|p ps IH]; intro acc; simpl.
  - split; [lra | constructor].
  - destruct (IH (farther c acc p)) as [Hacc Hall].
    assert (Hstep : acc <= farther c acc p /\ distanceTo p c <= farther c acc p).
    { unfold farther; destruct (Rgt_dec _ _); unfold Rgt in *; lra. }
    split; [lra|]. constructor; [lra | exact Hall].
Qed.

Lemma maxDistFrom_nonneg c ps : 0 <= maxDistFrom c ps.
Proof. rewrite maxDistFrom_fold. apply fold_farther_bounds. Qed.

Lemma scaleOf_pos m : 0 <= m -> 0 < scaleOf m.
Proof.
  intro Hm. unfold scaleOf, targetRadius.
  destruct (Rgt_dec m 0) as [H | H]; [|lra].
  apply Rdiv_lt_0_compat; unfold Rgt in *; lra.
Qed.

Lemma normalize_self c s : normalize c s c = zero.
Proof.
  unfold normalize, multiplyScalar, sub, zero; simpl; f_equal; ring.
Qed.

Lemma memo_positions sd :
  map pos (nodes (memo (Some sd)))
    = map (normalize (centroidOf (atoms sd))
                     (scaleOf (maxDistFrom (centroidOf (atoms sd))
                                           (map position (atoms sd)))))
          (map position (atoms sd)).
Proof.
  unfold memo. destruct (atoms sd) as [|a l] eqn:E; [reflexivity|].
  cbn [nodes]. rewrite !map_map. reflexivity.
Qed.

(** A single atom is its own centroid. *)
Lemma single_atom_centroid a : centroidOf [a] = position a.
Proof.
  unfold centroidOf, divideScalar, multiplyScalar, add, zero, position; simpl.
  f_equal; field.
Qed.

Lemma distance_self p : distanceTo p p = 0.
Proof.
  unfold distanceTo, distanceToSquared; simpl.
  replace (_ + _ + _) with 0 by ring. apply sqrt_0.
Qed.

Lemma single_atom_maxDist a :
  maxDistFrom (centroidOf [a]) (map position [a]) = 0.
Proof.
  rewrite single_atom_centroid. unfold maxDistFrom, farther; simpl.
  rewrite distance_self.
  destruct (Rgt_dec 0 0) as [H | H]; [unfold Rgt in H; lra | reflexivity].
Qed.

Lemma scaleOf_zero : scaleOf 0 = 1.
Proof.
  unfold scaleOf. destruct (Rgt_dec 0 0) as [H | H]; [unfold Rgt in H; lra | reflexivity].
Qed.

(** The normalized single atom: scale 1, at the origin, at distance 0. *)
Lemma single_atom_normalized sd a :
  atoms sd = [a] ->
  scaleOf (maxDistFrom (centroidOf (atoms sd)) (map position (atoms sd))) = 1 /\
  map pos (nodes (memo (Some sd))) = [zero] /\
  maxDistFrom zero (map pos (nodes (memo (Some sd)))) = 0.
Proof.
  intro Ha. rewrite memo_positions, Ha.
  pose proof (single_atom_maxDist a) as Hm.
  split; [rewrite Hm; apply scaleOf_zero|].
  assert (Hout : map (normalize (centroidOf [a])
                        (scaleOf (maxDistFrom (centroidOf [a]) (map position [a]))))
                     (map position [a]) = [zero]).
  { rewrite Hm, single_atom_centroid. cbn [map]. rewrite normalize_self.
    reflexivity. }
  split; [exact Hout|].
  rewrite Hout. unfold maxDistFrom, farther; simpl.
  rewrite distance_self.
  destruct (Rgt_dec 0 0) as [H | H]; [unfold Rgt in H; lra | reflexivity].
Qed.

Lemma normalized_within c s M bound ps :
  0 <= s -> s * M <= bound ->
  Forall (fun p => distanceTo p c <= M) ps ->
  Forall (fun q => distanceTo q zero <= bound) (map (normalize c s) ps).
Proof.
  intros Hs Hb Hall.
  induction Hall as [|p ps Hp _ IH]; simpl; constructor; [|exact IH].
  rewrite distance_normalized by exact Hs.
  apply Rle_trans with (s * M); [|exact Hb].
  apply Rmult_le_compat_l; assumption.
Qed.



(** C2 as stated fails for a single atom: the one atom of the sample is
    moved to the origin with scale 1, and the largest distance from the
    origin is 0, not the target radius. *)
Lemma single_atom_not_at_target_radius :
  atoms Samples.sampleStructure = [Samples.carbon3D] /\
  map pos (nodes (memo (Some Samples.sampleStructure))) = [zero] /\
  maxDistFrom zero (map pos (nodes (memo (Some Samples.sampleStructure))))
    <> targetRadius.
Proof.
  destruct (single_atom_normalized Samples.sampleStructure Samples.carbon3D
              eq_refl) as [_ [Hout Hmax]].
  split; [reflexivity|]. split; [exact Hout|].
  rewrite Hmax. unfold targetRadius. lra.
Qed.

(** The spheres of the scene: one per atom, at the normalized position,
    with the radius and the colour of its element. *)
Lemma scene_spheres sd :
  map sphereOf (nodes (memo (Some sd)))
    = map (fun a =>
             Sphere (normalize (centroidOf (atoms sd))
                       (scaleOf (maxDistFrom (centroidOf (atoms sd))
                                             (map position (atoms sd))))
                       (position a))
                    (sphereRadius (a3_element a))
                    (getAtomColor (a3_element a)))
          (atoms sd).
Proof.
  unfold memo. destruct (atoms sd) as [|a l] eqn:E; [reflexivity|].
  cbn [nodes]. rewrite map_map. reflexivity.
Qed.

End Normalizer.

(* ------------------------------------------------------------------ *)
(** ** The normalizer on doubles *)
(* ------------------------------------------------------------------ *)

Section NormalizerDoubles.
Import Floats.PrimFloat.
Import Normalizer64.
Local Open Scope float_scope.


(** The repositioning and the scale rule, in the double arithmetic of the
    code: for every non-empty list each point is moved to
    [(p - centroid) * scale], and the scale is [5.5 / maxDist] exactly when
    the comparison [maxDist > 0] holds, and 1 otherwise. *)
Lemma normalized_on_doubles (l : list Vector3) :
  l <> [] ->
  let c := centroidOf l in
  let m := maxDistFrom c l in
  normalized l = map (fun p => multiplyScalar (sub p c) (scaleOf m)) l /\
  (ltb 0 m = true -> scaleOf m = 5.5 / m) /\
  (ltb 0 m = false -> scaleOf m = 1).
Proof.
  intros Hne c m. split.
  - destruct l as [|p l']; [contradiction | reflexivity].
  - unfold scaleOf. split; intro H; rewrite H; reflexivity.
Qed.

End NormalizerDoubles.

(** ** Atom radius and colour *)

Section AtomColors.
Import Viewer3D.

Lemma str_eqb_eq a : forall b, str_eqb a b = true <-> a = b.
Proof.
  induction a as [|x a IH]; intros [|y b]; simpl; split; intro H;
    try reflexivity; try discriminate.
  - apply andb_true_iff in H as [Hx Ha].
    apply N.eqb_eq in Hx. apply IH in Ha. congruence.
  - injection H as -> ->. rewrite N.eqb_refl. apply IH. reflexivity.
Qed.

Lemma sphereRadius_H : sphereRadius (js "H") = 0.2.
Proof. reflexivity. Qed.

Lemma sphereRadius_other el : el <> js "H" -> sphereRadius el = 0.35.
Proof.
  intro H. unfold sphereRadius.
  destruct (str_eqb el (js "H")) eqn:E; [|reflexivity].
  apply str_eqb_eq in E. contradiction.
Qed.

Ltac table_cases H :=
  unfold ATOM_COLORS in H; simpl in H;
  repeat (destruct H as [H | H]; [inversion H; subst; clear H |]);
  [ .. | contradiction ].

(** A symbol written as a key of the table has the colour of that key. *)
Lemma color_as_written key c :
  In (key, c) ATOM_COLORS -> getAtomColor key = Some (Str c).
Proof. intro H. table_cases H; reflexivity. Qed.

Ltac settle Hcap :=
  cbv in Hcap;
  first [ discriminate Hcap
        | injection Hcap; intros; subst;
          first [ exfalso; lia | vm_compute; reflexivity ] ].

(** A symbol whose first letter, once upper-cased, makes it a key of the
    table has the colour of that key. *)
Lemma color_first_letter_capitalized el key c :
  In (key, c) ATOM_COLORS -> capitalizeFirst el = key ->
  getAtomColor el = Some (Str c).
Proof.
  intros Hin Hcap.
  destruct el as [|c0 rest].
  { simpl in Hcap; subst key. table_cases Hin. }
  unfold capitalizeFirst, toUpperCase1 in Hcap.
  destruct (N.leb 97 c0 && N.leb c0 122) eqn:E1.
  - apply andb_true_iff in E1 as [La Lb].
    apply N.leb_le in La, Lb.
    assert (Hc0 : c0 = ((c0 - 32) + 32)%N) by lia.
    remember (c0 - 32)%N as u eqn:Hu. clear Hu.
    revert Hcap; table_cases Hin; intro Hcap; settle Hcap.
  - destruct (N.eqb c0 305) eqn:E2.
    { apply N.eqb_eq in E2; subst c0. revert Hcap; table_cases Hin; intro Hcap; settle Hcap. }
    destruct (N.eqb c0 383) eqn:E3.
    { apply N.eqb_eq in E3; subst c0. revert Hcap; table_cases Hin; intro Hcap; settle Hcap. }
    destruct (N.eqb c0 223) eqn:E4.
    { apply N.eqb_eq in E4; subst c0. revert Hcap; table_cases Hin; intro Hcap; settle Hcap. }
    clear E1 E2 E3 E4.
    revert Hcap; table_cases Hin; intro Hcap; settle Hcap.
Qed.

(** C9, as the code has it.  A sphere has radius 0.2 when the element is
    the string [H] and 0.35 for every other element string, so the
    hydrogen radius is strictly the smaller.  Its colour is the table entry
    of the element symbol as written or, failing that, of the symbol with
    its first letter put in upper case (the other letters are compared as
    written); a symbol for which neither reading finds anything gets the
    neutral colour. *)
Theorem sphere_radius_and_color (el : jsstring) :
  sphereRadius (js "H") = 0.2 /\
  (el <> js "H" ->
     sphereRadius el = 0.35 /\ sphereRadius (js "H") < sphereRadius el) /\
  (forall key c, In (key, c) ATOM_COLORS ->
     el = key \/ capitalizeFirst el = key ->
     getAtomColor el = Some (Str c)) /\
  (ATOM_COLORS_get el = None -> ATOM_COLORS_get (capitalizeFirst el) = None ->
     getAtomColor el = Some (Str default_color)).
Proof.
  split; [apply sphereRadius_H|]. split; [|split].
  - intro H. rewrite sphereRadius_H, (sphereRadius_other el H). split; lra.
  - intros key c Hin [-> | Hcap].
    + apply color_as_written; exact Hin.
    + apply (color_first_letter_capitalized el key c Hin Hcap).
  - intros H1 H2. unfold getAtomColor. rewrite H1, H2. reflexivity.
Qed.

(** The lower-case symbol [cl] is coloured as chlorine, and is no hydrogen. *)
Lemma sphere_radius_and_color_witness :
  js "cl" <> js "H" /\
  In (js "Cl", js "#1FF01F") ATOM_COLORS /\
  capitalizeFirst (js "cl") = js "Cl" /\
  sphereRadius (js "H") < sphereRadius (js "cl") /\
  getAtomColor (js "cl") = Some (Str (js "#1FF01F")).
Proof.
  assert (Hne : js "cl" <> js "H") by discriminate.
  assert (Hin : In (js "Cl", js "#1FF01F") ATOM_COLORS).
  { unfold ATOM_COLORS; simpl; tauto. }
  destruct (sphere_radius_and_color (js "cl")) as [_ [Hr [Hc _]]].
  split; [exact Hne|]. split; [exact Hin|]. split; [reflexivity|].
  split; [exact (proj2 (Hr Hne))|].
  apply (Hc (js "Cl") (js "#1FF01F") Hin). right; reflexivity.
Defined.

(** C9 as stated fails on the matching: [CL] and the key [Cl] agree up to
    case, yet [CL] is given the neutral colour, not the colour of [Cl].
    Likewise the element [h] is coloured as [H] but drawn with the larger
    radius. *)
Lemma uppercase_symbol_gets_default_color :
  spec_caseInsensitiveMatch (js "CL") (js "Cl") = true /\
  getAtomColor (js "Cl") = Some (Str (js "#1FF01F")) /\
  getAtomColor (js "CL") = Some (Str default_color) /\
  getAtomColor (js "CL") <> getAtomColor (js "Cl") /\
  spec_caseInsensitiveMatch (js "h") (js "H") = true /\
  getAtomColor (js "h") = getAtomColor (js "H") /\
  sphereRadius (js "h") = 0.35.
Proof.
  repeat split; try reflexivity.
  discriminate.
Qed.

End AtomColors.

(* ================================================================== *)
(** * Further properties *)
(* ================================================================== *)

(** ** The viewBox and the bonds of the 2D view *)

Section ViewBoxBounds.
Import Viewer2D.

Lemma fold_lower_bounds f rest : forall m,
  fold_left (fun m a => if Rlt_dec (f a) m then f a else m) rest m <= m /\
  Forall (fun a : Atom2D =>
            fold_left (fun m a => if Rlt_dec (f a) m then f a else m) rest m <= f a)
         rest.
Proof.
  induction rest as [|a rest IH]; intro m; simpl.
  - split; [lra | constructor].
  - destruct (IH (if Rlt_dec (f a) m then f a else m)) as [Hm Hall].
    assert (Hstep : (if Rlt_dec (f a) m then f a else m) <= m /\
                    (if Rlt_dec (f a) m then f a else m) <= f a)
      by (destruct (Rlt_dec (f a) m); lra).
    split; [lra|]. constructor; [lra | exact Hall].
Qed.

Lemma fold_upper_bounds f rest : forall m,
  m <= fold_left (fun m a => if Rgt_dec (f a) m then f a else m) rest m /\
  Forall (fun a : Atom2D =>
            f a <= fold_left (fun m a => if Rgt_dec (f a) m then f a else m) rest m)
         rest.
Proof.
  induction rest as [|a rest IH]; intro m; simpl.
  - split; [lra | constructor].
  - destruct (IH (if Rgt_dec (f a) m then f a else m)) as [Hm Hall].
    assert (Hstep : m <= (if Rgt_dec (f a) m then f a else m) /\
                    f a <= (if Rgt_dec (f a) m then f a else m))
      by (destruct (Rgt_dec (f a) m); unfold Rgt in *; lra).
    split; [lra|]. constructor; [lra | exact Hall].
Qed.

Lemma lower_le f a0 rest a : In a (a0 :: rest) -> lower f a0 rest <= f a.
Proof.
  unfold lower. destruct (fold_lower_bounds f rest (f a0)) as [H0 Hall].
  intros [<- | Hin]; [exact H0|].
  rewrite Forall_forall in Hall. apply Hall, Hin.
Qed.

Lemma upper_ge f a0 rest a : In a (a0 :: rest) -> f a <= upper f a0 rest.
Proof.
  unfold upper. destruct (fold_upper_bounds f rest (f a0)) as [H0 Hall].
  intros [<- | Hin]; [exact H0|].
  rewrite Forall_forall in Hall. apply Hall, Hin.
Qed.

(** X1.  Every atom drawn lies inside the viewBox, at least the padding away
    from each of its four edges (1.5 for a fetched layout, 20 otherwise), and
    the viewBox is at least two paddings wide and high. *)
Theorem viewBox_encloses_atoms pc sd a
  (Hin : In a (nodes (derive pc sd))) :
  let d := derive pc sd in
  let pad := if isOfficial d then 1.5 else 20 in
  vbX (viewBox d) + pad <= a2_x a <= vbX (viewBox d) + vbW (viewBox d) - pad /\
  vbY (viewBox d) + pad <= a2_y a <= vbY (viewBox d) + vbH (viewBox d) - pad /\
  2 * pad <= vbW (viewBox d) /\ 2 * pad <= vbH (viewBox d).
Proof.
  unfold derive in *.
  destruct (atomsList (choose pc sd)) as [|a0 rest] eqn:E; simpl in Hin;
    [contradiction|].
  cbn [viewBox isOfficial vbX vbY vbW vbH].
  assert (Hi : In a (a0 :: rest)) by exact Hin.
  pose proof (lower_le a2_x a0 rest a Hi) as Hlx.
  pose proof (upper_ge a2_x a0 rest a Hi) as Hux.
  pose proof (lower_le a2_y a0 rest a Hi) as Hly.
  pose proof (upper_ge a2_y a0 rest a Hi) as Huy.
  destruct (isOfficialData (choose pc sd)); repeat split; lra.
Qed.

Lemma viewBox_encloses_atoms_witness :
  In Samples.oxygen2D (nodes (derive None (Some Samples.sampleStructure))) /\
  vbX (viewBox (derive None (Some Samples.sampleStructure))) + 20
    <= a2_x Samples.oxygen2D.
Proof.
  assert (H : In Samples.oxygen2D (nodes (derive None (Some Samples.sampleStructure))))
    by (right; left; reflexivity).
  split; [exact H|].
  exact (proj1 (proj1 (viewBox_encloses_atoms None (Some Samples.sampleStructure)
                         Samples.oxygen2D H))).
Defined.

Lemma findNode_none ns i : findNode ns i = None <-> ~ In i (map a2_id ns).
Proof.
  unfold findNode. induction ns as [|n ns IH]; simpl.
  - tauto.
  - destruct (Z.eqb_spec (a2_id n) i) as [He | Hne].
    + split; [discriminate | tauto].
    + rewrite IH. tauto.
Qed.

Lemma findNode_some ns i n : findNode ns i = Some n -> In n ns /\ a2_id n = i.
Proof.
  unfold findNode; intro H. apply find_some in H as [Hin He].
  apply Z.eqb_eq in He. auto.
Qed.

(** X2.  A bond is left out of the 2D drawing exactly when one of its ends
    is the id of no node; when both are, it is drawn between two nodes
    carrying those ids. *)
Theorem bond_drawn_iff_both_ends_are_ids ns w b :
  (renderBond ns w b = None <->
     ~ In (from b) (map a2_id ns) \/ ~ In (to b) (map a2_id ns)) /\
  (forall ls, renderBond ns w b = Some ls ->
     exists f t, In f ns /\ In t ns /\ a2_id f = from b /\ a2_id t = to b /\
                 ls = bondLines f t (order b) w).
Proof.
  unfold renderBond. split.
  - destruct (findNode ns (from b)) as [f|] eqn:Ef;
      destruct (findNode ns (to b)) as [t|] eqn:Et.
    + split; [discriminate|].
      intros [H | H]; exfalso.
      * apply findNode_none in H. congruence.
      * apply findNode_none in H. congruence.
    + split; [|reflexivity]. intros _. right. apply findNode_none, Et.
    + split; [|reflexivity]. intros _. left. apply findNode_none, Ef.
    + split; [|reflexivity]. intros _. left. apply findNode_none, Ef.
  - intros ls H.
    destruct (findNode ns (from b)) as [f|] eqn:Ef; [|discriminate].
    destruct (findNode ns (to b)) as [t|] eqn:Et; [|discriminate].
    apply findNode_some in Ef as [Hf Hfi]. apply findNode_some in Et as [Ht Hti].
    exists f, t. injection H as <-. auto.
Qed.

End ViewBoxBounds.

(** ** The projection fallback and the 3D view on the same bonds *)

Section FallbackBonds.
Import Viewer2D ViewerExtra.

Lemma findNode_projectFrom l : forall k i,
  findNode (projectFrom k l) i
    = if ((k <=? i) && (i <? k + Z.of_nat (List.length l)))%Z
      then option_map (fun a => mkAtom2D i (a3_element a) (a3_x a * 20) (a3_y a * 20))
                      (nth_error l (Z.to_nat (i - k)))
      else None.
Proof.
  induction l as [|a l IH]; intros k i.
  - simpl. destruct (k <=? i)%Z eqn:E1; simpl; [|reflexivity].
    destruct (i <? k + 0)%Z eqn:E2; [|reflexivity].
    apply Z.leb_le in E1. apply Z.ltb_lt in E2. lia.
  - cbn [projectFrom]. unfold findNode. cbn [find a2_id].
    destruct (Z.eqb_spec k i) as [-> | Hne].
    + replace (i - i)%Z with 0%Z by lia. simpl Z.to_nat. cbn [nth_error option_map].
      replace ((i <=? i) && (i <? i + Z.of_nat (List.length (a :: l))))%Z with true;
        [reflexivity|].
      symmetry. apply andb_true_iff. split; [apply Z.leb_le; lia|].
      apply Z.ltb_lt. cbn [List.length]. lia.
    + fold (findNode (projectFrom (k + 1) l) i). rewrite IH.
      cbn [List.length]. rewrite Nat2Z.inj_succ.
      destruct (k + 1 <=? i)%Z eqn:E1; destruct (k <=? i)%Z eqn:E0;
        try apply Z.leb_le in E1; try apply Z.leb_le in E0;
        try apply Z.leb_gt in E1; try apply Z.leb_gt in E0; try lia; simpl.
      * replace (i <? k + Z.succ (Z.of_nat (List.length l)))%Z
          with (i <? k + 1 + Z.of_nat (List.length l))%Z by (f_equal; lia).
        destruct (i <? k + 1 + Z.of_nat (List.length l))%Z; [|reflexivity].
        replace (Z.to_nat (i - k)) with (S (Z.to_nat (i - (k + 1)))) by lia.
        reflexivity.
      * reflexivity.
Qed.

Lemma findNode_project_none l i :
  findNode (project l) i = None <-> isIndex (List.length l) i = false.
Proof.
  unfold project, isIndex. rewrite findNode_projectFrom.
  replace (0 + Z.of_nat (List.length l))%Z with (Z.of_nat (List.length l)) by lia.
  destruct ((0 <=? i) && (i <? Z.of_nat (List.length l)))%Z eqn:E.
  - split; [|discriminate].
    apply andb_true_iff in E as [E1 E2].
    apply Z.leb_le in E1. apply Z.ltb_lt in E2.
    destruct (nth_error l (Z.to_nat (i - 0))) eqn:En; [discriminate|].
    apply nth_error_None in En. lia.
  - tauto.
Qed.

Lemma index_none {A} (l : list A) i :
  Viewer3D.index l i = None <-> isIndex (List.length l) i = false.
Proof.
  unfold Viewer3D.index, isIndex.
  destruct (i <? 0)%Z eqn:E0.
  - apply Z.ltb_lt in E0.
    replace (0 <=? i)%Z with false by (symmetry; apply Z.leb_gt; lia).
    simpl; tauto.
  - apply Z.ltb_ge in E0.
    replace (0 <=? i)%Z with true by (symmetry; apply Z.leb_le; lia).
    simpl. rewrite nth_error_None.
    destruct (i <? Z.of_nat (List.length l))%Z eqn:E1.
    + apply Z.ltb_lt in E1. split; [lia | discriminate].
    + apply Z.ltb_ge in E1. split; [reflexivity | lia].
Qed.

Lemma memo_nodes_length sd :
  List.length (Viewer3D.nodes (Viewer3D.memo (Some sd))) = List.length (atoms sd).
Proof.
  unfold Viewer3D.memo. destruct (atoms sd) as [|a l]; [reflexivity|].
  cbn [Viewer3D.nodes]. apply length_map.
Qed.

Lemma posAt_throws ns i :
  (exists e, Viewer3D.posAt ns i = Throws e) <-> isIndex (List.length ns) i = false.
Proof.
  unfold Viewer3D.posAt. rewrite <- index_none.
  destruct (Viewer3D.index ns i).
  - split; [intros [e H]; discriminate | discriminate].
  - split; [reflexivity | intros _; eexists; reflexivity].
Qed.

(** X3.  When the 2D view falls back on the projection of the 3D atoms, the
    ids are the positions in the atom list: a bond is skipped by the 2D view
    exactly when one of its ends is no index of that list, which is exactly
    when building its cylinder in the 3D view throws. *)
Theorem fallback_bond_skipped_iff_3D_throws sd w b :
  (renderBond (project (atoms sd)) w b = None <->
     bondInRange (List.length (atoms sd)) b = false) /\
  ((exists e, Viewer3D.bondMeshes (Viewer3D.nodes (Viewer3D.memo (Some sd)))
                [(from b, to b)] = Throws e) <->
     bondInRange (List.length (atoms sd)) b = false).
Proof.
  unfold bondInRange. split.
  - unfold renderBond.
    destruct (findNode (project (atoms sd)) (from b)) eqn:Ef.
    + assert (Hf : isIndex (List.length (atoms sd)) (from b) = true).
      { destruct (isIndex (List.length (atoms sd)) (from b)) eqn:E; [reflexivity|].
        apply findNode_project_none in E. congruence. }
      rewrite Hf; simpl.
      destruct (findNode (project (atoms sd)) (to b)) eqn:Et.
      * split; [discriminate|]. intro E. apply findNode_project_none in E. congruence.
      * split; [|reflexivity]. intros _. apply findNode_project_none, Et.
    + apply findNode_project_none in Ef. rewrite Ef. simpl. tauto.
  - rewrite <- (memo_nodes_length sd).
    set (ns := Viewer3D.nodes (Viewer3D.memo (Some sd))).
    cbn [Viewer3D.bondMeshes]. unfold JS.bind.
    destruct (Viewer3D.posAt ns (from b)) as [p|e] eqn:Ef.
    + assert (Hf : isIndex (List.length ns) (from b) = true).
      { destruct (isIndex (List.length ns) (from b)) eqn:E; [reflexivity|].
        apply posAt_throws in E as [e He]. congruence. }
      rewrite Hf; simpl.
      destruct (Viewer3D.posAt ns (to b)) as [q|e] eqn:Et.
      * split; [intros [e H]; discriminate|].
        intro E. apply posAt_throws in E as [e He]. congruence.
      * split; [|intros _; eexists; reflexivity].
        intros _. apply posAt_throws. eexists; exact Et.
    + split; [|intros _; eexists; reflexivity].
      intros _. replace (isIndex (List.length ns) (from b)) with false; [reflexivity|].
      symmetry. apply posAt_throws. eexists; exact Ef.
Qed.

End FallbackBonds.

(** ** The zoom and pan handlers *)

Section ZoomPan.
Import Viewer2D Viewport.

Lemma run_snoc es e : run (es ++ [e]) = step (run es) e.
Proof. unfold run. rewrite fold_left_app. reflexivity. Qed.

Lemma repeat_snoc {A} (a : A) n : repeat a (S n) = repeat a n ++ [a].
Proof. induction n as [|n IH]; simpl in *; [reflexivity | rewrite <- IH; reflexivity]. Qed.

(** X4.  A drag moves the drawing by the displacement of the pointer: after
    a mouse-down at [(a, b)] on a rendered state, a render and a mouse-move
    to [(a', b')], the offsets are the former ones plus [(a' - a, b' - b)],
    and the scale is unchanged. *)
Theorem drag_moves_by_pointer_displacement s a b a' b' :
  let c := step (step (step (mkComponent s s) (MouseDown a b)) Render)
                (MouseMove a' b') in
  k (transform (current c)) = k (transform s) /\
  tx (transform (current c)) = tx (transform s) + (a' - a) /\
  ty (transform (current c)) = ty (transform s) + (b' - b) /\
  isDragging (current c) = true.
Proof. simpl. repeat split; lra. Qed.

(** X5.  Zooming in [n] times from the initial view gives the scale
    [min(1.2^n, 5)], and zooming out [n] times gives [max(1 / 1.2^n, 0.5)];
    neither moves the offsets. *)
Theorem repeated_zoom n :
  transform (current (run (repeat ZoomIn n)))
    = mkTransform (Rmin (1.2 ^ n) 5) 0 0 /\
  transform (current (run (repeat ZoomOut n)))
    = mkTransform (Rmax (/ 1.2 ^ n) 0.5) 0 0.
Proof.
  assert (Hpow : forall m, 0 < 1.2 ^ m) by (intro m; apply pow_lt; lra).
  split.
  - induction n as [|n IH].
    + simpl. f_equal. unfold Rmin. destruct (Rle_dec 1 5); lra.
    + rewrite repeat_snoc, run_snoc. cbn [step current]. unfold handleZoomIn, setTransform.
      cbn [transform]. rewrite IH. cbn [k tx ty]. f_equal.
      pose proof (Hpow n) as Hp. simpl pow.
      unfold Rmin.
      destruct (Rle_dec (1.2 ^ n) 5); destruct (Rle_dec (1.2 * 1.2 ^ n) 5);
        match goal with |- context [Rle_dec ?x 5] => destruct (Rle_dec x 5) end; lra.
  - induction n as [|n IH].
    + simpl. f_equal. unfold Rmax. destruct (Rle_dec (/ 1) 0.5); lra.
    + rewrite repeat_snoc, run_snoc. cbn [step current]. unfold handleZoomOut, setTransform.
      cbn [transform]. rewrite IH. cbn [k tx ty]. f_equal.
      pose proof (Hpow n) as Hp. simpl pow.
      assert (Hinv : / (1.2 * 1.2 ^ n) = / 1.2 ^ n / 1.2) by (field; lra).
      assert (Hip : 0 < / 1.2 ^ n) by (apply Rinv_0_lt_compat; exact Hp).
      rewrite Hinv.
      unfold Rmax.
      destruct (Rle_dec (/ 1.2 ^ n) 0.5);
        match goal with |- context [Rle_dec (?x / 1.2) 0.5] =>
          destruct (Rle_dec (x / 1.2) 0.5) end;
        try lra;
        match goal with |- context [Rle_dec ?x 0.5] => destruct (Rle_dec x 0.5) end;
        lra.
Qed.

(** X7.  Wheel events are not cumulative between two renders: each computes
    the new scale from the scale of the last render, so of two wheel events
    with no render between them only the second counts. *)
Theorem wheel_without_render_overrides c d1 d2 :
  step (step c (Wheel d1)) (Wheel d2) = step c (Wheel d2).
Proof. destruct c as [[t d p] sn]. reflexivity. Qed.

(** X8.  Zooming never pans and panning never zooms: the offsets change on
    a mouse-move or a reset only, and the scale on a zoom, a wheel or a reset
    only. *)
Theorem zoom_and_pan_are_independent c e :
  match e with
  | MouseMove _ _ | Reset => True
  | _ => tx (transform (current (step c e))) = tx (transform (current c)) /\
         ty (transform (current (step c e))) = ty (transform (current c))
  end /\
  match e with
  | ZoomIn | ZoomOut | Wheel _ | Reset => True
  | _ => k (transform (current (step c e))) = k (transform (current c))
  end.
Proof.
  destruct e; simpl; auto.
  unfold handleMouseMove. destruct (isDragging (seen c)); simpl; auto.
Qed.

Lemma Rmax_03_pos w : 0.3 <= Rmax 0.3 w.
Proof. apply Rmax_l. Qed.

Lemma strokeScale_pos vb t : 0.5 <= k t <= 5 -> 0.06 <= strokeScale vb t.
Proof.
  intros [Hlo Hhi]. unfold strokeScale.
  pose proof (Rmax_03_pos (vbW vb / 100)) as Hm.
  assert (Hk : 0 < k t) by lra.
  apply (Rmult_le_reg_r (k t)); [exact Hk|].
  unfold Rdiv. rewrite Rmult_assoc, Rinv_l by lra. lra.
Qed.

(** X9.  Whatever the zoom and pan events so far and whatever the viewBox,
    the stroke scale of a render is at least 0.06 (the division by the scale
    is safe), and every line of every bond, of any order, has a positive
    stroke width. *)
Theorem stroke_widths_are_positive es vb pc f t ord :
  let sc := strokeScale vb (transform (current (run es))) in
  0.06 <= sc /\
  0 < baseWidth sc pc /\
  Forall ViewerExtra.positiveWidth (bondLines f t ord (baseWidth sc pc)).
Proof.
  intro sc.
  assert (Hsc : 0.06 <= sc).
  { apply strokeScale_pos.
    exact (proj1 (fold_inRange es mounted mounted_inRange)). }
  assert (Hw : 0 < baseWidth sc pc).
  { unfold baseWidth. destruct pc; lra. }
  split; [exact Hsc|]. split; [exact Hw|].
  unfold bondLines, ViewerExtra.positiveWidth.
  destruct (Z.eqb ord 2); [|destruct (Z.eqb ord 3); [|destruct (Z.eqb ord 4)]];
    repeat constructor; simpl; lra.
Qed.

End ZoomPan.

(** ** More on the geometry normalizer and the 3D scene *)

Section Scene3DMore.
Import Viewer3D ViewerExtra.

(** X10.  Every normalized atom is within the target radius of the origin,
    for every structure. *)
Theorem normalized_atoms_within_target_radius sd :
  Forall (fun q => distanceTo q zero <= targetRadius)
         (map pos (nodes (memo (Some sd)))).
Proof.
  rewrite memo_positions.
  set (c := centroidOf (atoms sd)).
  set (m := maxDistFrom c (map position (atoms sd))).
  assert (Hm : 0 <= m) by apply maxDistFrom_nonneg.
  assert (Hs : 0 < scaleOf m) by (apply scaleOf_pos; exact Hm).
  assert (Hsm : scaleOf m * m <= targetRadius).
  { unfold scaleOf, targetRadius in *. destruct (Rgt_dec m 0) as [H | H].
    - unfold Rgt in H. replace (5.5 / m * m) with 5.5 by (field; lra). lra.
    - assert (H0 : m = 0) by (unfold Rgt in H; lra). rewrite H0. lra. }
  apply (normalized_within c (scaleOf m) m targetRadius); [lra | exact Hsm |].
  destruct (fold_farther_bounds c (map position (atoms sd)) 0) as [_ Hall].
  exact Hall.
Qed.

Lemma index_map {A B} (f : A -> B) (l : list A) i :
  index (map f l) i = option_map f (index l i).
Proof.
  unfold index. destruct (i <? 0)%Z; [reflexivity|]. apply nth_error_map.
Qed.

(** The nodes are the atoms, one for one and in order, each at its
    normalized position. *)
Lemma memo_nodes sd :
  nodes (memo (Some sd))
  = map (fun a => mkNode (placed sd a) (a3_element a)
                         (getAtomColor (a3_element a)))
        (atoms sd).
Proof.
  unfold memo, placed, normalize. destruct (atoms sd) as [|a l]; reflexivity.
Qed.

(** When the two ends of every bond are indices, the cylinders are built
    one per bond and in the order of the bonds, each between the positions
    of the two nodes its bond names. *)
Lemma bondMeshes_in_range {A} (f : A -> Node) (l : list A) (bs : list Bond) :
  forallb (bondInRange (List.length l)) bs = true ->
  exists ms,
    bondMeshes (map f l) (map (fun b => (from b, to b)) bs) = Returns ms /\
    Forall2 (fun b m => exists a1 a2,
               index l (from b) = Some a1 /\ index l (to b) = Some a2 /\
               m = BondMesh (pos (f a1)) (pos (f a2)))
            bs ms.
Proof.
  induction bs as [|b rest IH]; intro H.
  - exists []; split; [reflexivity | constructor].
  - cbn [forallb] in H.
    apply andb_true_iff in H as [Hb Hrest].
    unfold bondInRange in Hb.
    apply andb_true_iff in Hb as [Hi Hj].
    destruct (IH Hrest) as [ms [Hms Hall]].
    cbn [map bondMeshes]. unfold JS.bind, posAt.
    rewrite !index_map.
    destruct (index l (from b)) as [a1|] eqn:Ei.
    2:{ apply index_none in Ei. congruence. }
    destruct (index l (to b)) as [a2|] eqn:Ej.
    2:{ apply index_none in Ej. congruence. }
    cbn [option_map]. fold (posAt (map f l)). rewrite Hms.
    eexists; split; [reflexivity|].
    constructor; [|exact Hall].
    exists a1, a2. split; [exact Ei | split; [exact Ej | reflexivity]].
Qed.

Lemma bondMeshes_out_of_range ns conns :
  forallb (fun c => isIndex (List.length ns) (fst c) && isIndex (List.length ns) (snd c))
          conns = false ->
  bondMeshes ns conns = Throws (TypeError_read (js "undefined") (js "pos")).
Proof.
  induction conns as [|[i j] rest IH]; intro H; [discriminate|].
  cbn [forallb fst snd] in H.
  cbn [bondMeshes]. unfold JS.bind, posAt.
  destruct (index ns i) as [ni|] eqn:Ei; [|reflexivity].
  destruct (index ns j) as [nj|] eqn:Ej; [|reflexivity].
  assert (Hi : isIndex (List.length ns) i = true).
  { destruct (isIndex (List.length ns) i) eqn:E; [reflexivity|].
    apply index_none in E. congruence. }
  assert (Hj : isIndex (List.length ns) j = true).
  { destruct (isIndex (List.length ns) j) eqn:E; [reflexivity|].
    apply index_none in E. congruence. }
  rewrite Hi, Hj in H. simpl in H.
  fold (posAt ns). rewrite (IH H). reflexivity.
Qed.

Lemma forallb_ends n bs :
  forallb (fun c => isIndex n (fst c) && isIndex n (snd c))
          (map (fun b : Bond => (from b, to b)) bs)
  = forallb (bondInRange n) bs.
Proof.
  induction bs as [|b0 bs IHb]; [reflexivity|].
  simpl. rewrite IHb. reflexivity.
Qed.

(** X12.  What the 3D view renders: nothing ([null]) when there is no
    structure or no atom, whatever the bonds; with atoms, when the two ends
    of every bond are indices of the atom list, the scene is one sphere per
    atom, in the order of the atoms, each at the normalized position of its
    atom with the radius and the colour of its element, followed by one
    cylinder per bond, in the order of the bonds, each between the
    normalized positions of the two atoms its bond names; and a thrown
    [TypeError] as soon as one bond has an end that is no index. *)
Theorem scene3D_render_cases sd :
  render None = Returns None /\
  (atoms sd = [] -> render (Some sd) = Returns None) /\
  (atoms sd <> [] ->
     forallb (bondInRange (List.length (atoms sd))) (bonds sd) = true ->
     exists cylinders,
       render (Some sd)
       = Returns (Some (map (fun a => Sphere (placed sd a)
                                             (sphereRadius (a3_element a))
                                             (getAtomColor (a3_element a)))
                            (atoms sd)
                        ++ cylinders)) /\
       Forall2 (fun b m => exists a1 a2,
                  index (atoms sd) (from b) = Some a1 /\
                  index (atoms sd) (to b) = Some a2 /\
                  m = BondMesh (placed sd a1) (placed sd a2))
               (bonds sd) cylinders /\
       List.length cylinders = List.length (bonds sd)) /\
  (atoms sd <> [] ->
     forallb (bondInRange (List.length (atoms sd))) (bonds sd) = false ->
     render (Some sd) = Throws (TypeError_read (js "undefined") (js "pos"))).
Proof.
  split; [reflexivity|]. split.
  { intro H. unfold render, memo. rewrite H. reflexivity. }
  assert (Hconn : connections (memo (Some sd)) = map (fun b => (from b, to b)) (bonds sd)
                  \/ atoms sd = []).
  { unfold memo. destruct (atoms sd); [right; reflexivity | left; reflexivity]. }
  assert (Hfb : forall n,
            forallb (fun c => isIndex n (fst c) && isIndex n (snd c))
                    (map (fun b => (from b, to b)) (bonds sd))
            = forallb (bondInRange n) (bonds sd)).
  { intro n. apply forallb_ends. }
  split; intros Hne Hb; destruct Hconn as [Hconn | Hnil]; try contradiction.
  - unfold render.
    destruct (nodes (memo (Some sd))) as [|n0 ns] eqn:En.
    { exfalso. pose proof (memo_nodes_length sd) as Hl. rewrite En in Hl.
      destruct (atoms sd); [congruence | discriminate]. }
    rewrite <- En, Hconn, memo_nodes.
    destruct (bondMeshes_in_range
                (fun a => mkNode (placed sd a) (a3_element a)
                                 (getAtomColor (a3_element a)))
                (atoms sd) (bonds sd) Hb) as [ms [Hms Hall]].
    rewrite Hms. unfold JS.bind. exists ms.
    split; [rewrite map_map; reflexivity|].
    split; [exact Hall|].
    symmetry. exact (Forall2_length Hall).
  - unfold render.
    destruct (nodes (memo (Some sd))) as [|n0 ns] eqn:En.
    { exfalso. pose proof (memo_nodes_length sd) as Hl. rewrite En in Hl.
      destruct (atoms sd); [congruence | discriminate]. }
    rewrite <- En, Hconn.
    rewrite bondMeshes_out_of_range; [reflexivity|].
    rewrite Hfb, memo_nodes_length. exact Hb.
Qed.

Lemma scene3D_render_cases_witness :
  atoms Samples.twoAtoms <> [] /\
  forallb (bondInRange (List.length (atoms Samples.twoAtoms)))
          (bonds Samples.twoAtoms) = true /\
  exists cylinders,
    render (Some Samples.twoAtoms)
    = Returns (Some (map (fun a => Sphere (placed Samples.twoAtoms a)
                                          (sphereRadius (a3_element a))
                                          (getAtomColor (a3_element a)))
                         (atoms Samples.twoAtoms)
                     ++ cylinders)) /\
    List.length cylinders = 1%nat.
Proof.
  assert (H : atoms Samples.twoAtoms <> []) by discriminate.
  split; [exact H|]. split; [reflexivity|].
  destruct (proj1 (proj2 (proj2 (scene3D_render_cases Samples.twoAtoms))) H eq_refl)
    as [cylinders [Hr [_ Hl]]].
  exists cylinders. split; [exact Hr | exact Hl].
Defined.

End Scene3DMore.

(** ** More on the structure fetcher *)

Section FetcherMore.
Import Fetcher.

Lemma fetch_run_snoc n es e : run n (es ++ [e]) = step (run n es) e.
Proof. unfold run. rewrite fold_left_app. reflexivity. Qed.

Lemma mount_no_data n : pubChemData (mount n) = None.
Proof. unfold mount, effect; simpl. destruct n; reflexivity. Qed.

(** X13.  The fetched layout on display is never made up: whenever one is
    displayed after a run of name changes and settled requests, it is the
    parsed record of one of the requests that settled in that run. *)
Theorem displayed_layout_comes_from_a_response n es d
  (Hshown : pubChemData (run n es) = Some d) :
  exists i, In (Resolve i (Parsed d)) es.
Proof.
  revert d Hshown. induction es as [|e es IH] using rev_ind; intros d Hshown.
  - unfold run in Hshown; simpl in Hshown. rewrite mount_no_data in Hshown.
    discriminate.
  - rewrite fetch_run_snoc in Hshown.
    assert (Hkeep : pubChemData (run n es) = Some d -> exists i, In (Resolve i (Parsed d)) (es ++ [e])).
    { intro H. destruct (IH d H) as [i Hi]. exists i. apply in_or_app; left; exact Hi. }
    destruct e as [m | i o]; simpl in Hshown.
    + destruct (str_eqb m (moleculeName (run n es))); [exact (Hkeep Hshown)|].
      unfold effect in Hshown; simpl in Hshown.
      destruct m; simpl in Hshown; [exact (Hkeep Hshown) | discriminate].
    + unfold resolve in Hshown.
      destruct (isInFlight i (run n es)); [|exact (Hkeep Hshown)].
      simpl in Hshown. destruct o as [d' | | err].
      * injection Hshown as ->. exists i. apply in_or_app; right; left; reflexivity.
      * exact (Hkeep Hshown).
      * exact (Hkeep Hshown).
Qed.

Lemma displayed_layout_comes_from_a_response_witness :
  pubChemData (run Samples.aspirin
                 [Resolve 0 (Parsed Samples.aspirinLayout)])
    = Some Samples.aspirinLayout /\
  exists i, In (Resolve i (Parsed Samples.aspirinLayout))
               [Resolve 0 (Parsed Samples.aspirinLayout)].
Proof.
  assert (H : pubChemData (run Samples.aspirin
                             [Resolve 0 (Parsed Samples.aspirinLayout)])
              = Some Samples.aspirinLayout) by reflexivity.
  split; [exact H|].
  exact (displayed_layout_comes_from_a_response Samples.aspirin
           [Resolve 0 (Parsed Samples.aspirinLayout)] Samples.aspirinLayout H).
Defined.

(** X14.  The loading flag is raised only while a request is on the wire:
    after any run, [isLoadingPubChem] true implies that some request is still
    in flight. *)
Theorem loading_implies_request_in_flight n es
  (Hloading : isLoadingPubChem (run n es) = true) :
  inFlight (run n es) <> [].
Proof.
  revert Hloading. induction es as [|e es IH] using rev_ind; intro Hloading.
  - unfold run, mount, effect in *; simpl in *. destruct n; simpl in *;
      [discriminate | discriminate].
  - rewrite fetch_run_snoc in *.
    destruct e as [m | i o]; simpl in *.
    + destruct (str_eqb m (moleculeName (run n es))); [exact (IH Hloading)|].
      unfold effect in *; simpl in *.
      destruct m; simpl in *; [exact (IH Hloading)|].
      intro H. apply app_eq_nil in H as [_ H]. discriminate.
    + unfold resolve in *.
      destruct (isInFlight i (run n es)); [|exact (IH Hloading)].
      simpl in Hloading. discriminate.
Qed.

Lemma loading_implies_request_in_flight_witness :
  isLoadingPubChem (run Samples.aspirin [NameChange Samples.caffeine]) = true /\
  inFlight (run Samples.aspirin [NameChange Samples.caffeine]) <> [].
Proof.
  assert (H : isLoadingPubChem (run Samples.aspirin [NameChange Samples.caffeine])
              = true) by reflexivity.
  split; [exact H|].
  exact (loading_implies_request_in_flight Samples.aspirin
           [NameChange Samples.caffeine] H).
Defined.

End FetcherMore.

(** ** More on the cleaning of model answers and of displayed text *)

Section CleaningMore.
Import GeminiService ComparisonText.

Lemma replaceAll_absent p r s : includes p s = false -> replaceAll p r s = s.
Proof.
  induction s as [|c s IH]; intro H; [reflexivity|].
  apply includes_cons_false in H as [Hs Hi].
  unfold replaceAll.
  change (replaceAllFrom p r 0 (c :: s))
    with (if startsWith p (c :: s)
          then r ++ replaceAllFrom p r (pred (List.length p)) s
          else c :: replaceAllFrom p r 0 s).
  rewrite Hs. fold (replaceAll p r s). rewrite (IH Hi). reflexivity.
Qed.

Lemma trimStart_idem s : trimStart (trimStart s) = trimStart s.
Proof.
  destruct (trimStart_all_or_same s) as [-> | [c [r [-> Hc]]]]; [reflexivity|].
  simpl. rewrite Hc. reflexivity.
Qed.

Lemma trimStart_snoc l c :
  isWhiteSpace c = false -> exists w, trimStart (l ++ [c]) = w ++ [c].
Proof.
  intro Hc. induction l as [|x l [w Hw]].
  - exists []. simpl. rewrite Hc. reflexivity.
  - simpl. destruct (isWhiteSpace x).
    + exists w. exact Hw.
    + exists (x :: l). reflexivity.
Qed.

Lemma trimStart_trimEnd u : trimStart u = u -> trimStart (trimEnd u) = trimEnd u.
Proof.
  intro Hu. destruct u as [|c r]; [reflexivity|].
  assert (Hc : isWhiteSpace c = false).
  { destruct (isWhiteSpace c) eqn:E; [|reflexivity].
    simpl in Hu. rewrite E in Hu.
    destruct (trimStart_suffix r) as [w Hw].
    assert (Hlen : List.length r = (List.length w + List.length (trimStart r))%nat)
      by (rewrite Hw at 1; apply length_app).
    rewrite Hu in Hlen. simpl in Hlen. lia. }
  unfold trimEnd. simpl rev.
  destruct (trimStart_snoc (rev r) c Hc) as [w Hw]. rewrite Hw.
  rewrite rev_app_distr. simpl. rewrite Hc. reflexivity.
Qed.

Lemma trimEnd_idem u : trimEnd (trimEnd u) = trimEnd u.
Proof. unfold trimEnd. rewrite rev_involutive, trimStart_idem. reflexivity. Qed.

(** Trimming twice is trimming once. *)
Lemma trim_idem s : trim (trim s) = trim s.
Proof.
  unfold trim.
  rewrite (trimStart_trimEnd (trimStart s) (trimStart_idem s)).
  apply trimEnd_idem.
Qed.

(** X15.  On a text that holds no code fence and has no white space around
    it, the cleaning changes nothing, so [parseJSON] returns what
    [JSON.parse] returns on the text itself. *)
Theorem parseJSON_on_clean_text (JSON_parse : jsstring -> outcome json) text
  (Hfence : includes fence text = false)
  (Htrim : trim text = text) :
  cleaned text = text /\
  (forall v, JSON_parse text = Returns v -> parseJSON JSON_parse text = Returns v).
Proof.
  assert (Hc : cleaned text = text).
  { unfold cleaned.
    rewrite (removeAll_absent fenceJson text (fenceJson_absent text Hfence)).
    rewrite (removeAll_absent fence text Hfence). exact Htrim. }
  split; [exact Hc|].
  intros v Hv. unfold parseJSON. rewrite Hc, Hv. reflexivity.
Qed.

Lemma parseJSON_on_clean_text_witness :
  includes fence Samples.payload = false /\
  trim Samples.payload = Samples.payload /\
  cleaned Samples.payload = Samples.payload.
Proof.
  split; [reflexivity|]. split; [reflexivity|].
  exact (proj1 (parseJSON_on_clean_text Samples.toyParse Samples.payload
                  eq_refl eq_refl)).
Defined.

(** X16.  Cleaning a model answer twice is cleaning it once: the cleaned
    text holds no fence and no surrounding white space left to remove. *)
Theorem cleaned_is_idempotent text : cleaned (cleaned text) = cleaned text.
Proof.
  pose proof (cleaned_fence_free text) as Hf.
  unfold cleaned at 1.
  rewrite (removeAll_absent fenceJson _ (fenceJson_absent _ Hf)).
  rewrite (removeAll_absent fence _ Hf).
  unfold cleaned. apply trim_idem.
Qed.

Lemma bold_cases s :
  s = [] \/
  (exists r, s = (42 :: 42 :: r)%N) \/
  (exists c r, s = c :: r /\ startsWith bold s = false).
Proof.
  destruct s as [|c r]; [left; reflexivity|].
  destruct (startsWith bold (c :: r)) eqn:E.
  - right; left.
    change (N.eqb 42 c && startsWith [42%N] r = true) in E.
    apply andb_true_iff in E as [E0 E].
    apply N.eqb_eq in E0; subst c.
    destruct r as [|c1 r]; [discriminate|].
    change (N.eqb 42 c1 && true = true) in E.
    apply andb_true_iff in E as [E1 _].
    apply N.eqb_eq in E1; subst c1.
    exists r; reflexivity.
  - right; right; exists c, r; auto.
Qed.

Lemma removed_head_star s :
  startsWith [42%N] (removeAll bold s) = true -> startsWith [42%N] s = true.
Proof.
  destruct (bold_cases s) as [-> | [[r ->] | [c [r [-> Hk]]]]]; intro H.
  - exact H.
  - reflexivity.
  - rewrite (removeAll_keep _ _ _ Hk) in H. exact H.
Qed.

Lemma removeAll_bold_free_upto n :
  forall s, (List.length s <= n)%nat -> includes bold (removeAll bold s) = false.
Proof.
  induction n as [|n IH]; intros s Hlen.
  - destruct s; [reflexivity | simpl in Hlen; lia].
  - destruct (bold_cases s) as [-> | [[r ->] | [c [r [-> Hk]]]]].
    + reflexivity.
    + change (removeAll bold (42 :: 42 :: r)%N) with (removeAll bold r).
      apply IH. simpl in Hlen; lia.
    + rewrite (removeAll_keep _ _ _ Hk).
      assert (Hrest : includes bold (removeAll bold r) = false)
        by (apply IH; simpl in Hlen; lia).
      change (includes bold (c :: removeAll bold r))
        with (startsWith bold (c :: removeAll bold r)
              || includes bold (removeAll bold r)).
      rewrite Hrest, orb_false_r.
      destruct (startsWith bold (c :: removeAll bold r)) eqn:E; [|reflexivity].
      exfalso.
      change (startsWith bold (c :: removeAll bold r))
        with (N.eqb 42 c && startsWith [42%N] (removeAll bold r)) in E.
      apply andb_true_iff in E as [Hc H1].
      apply removed_head_star in H1.
      change (startsWith bold (c :: r))
        with (N.eqb 42 c && startsWith [42%N] r) in Hk.
      rewrite Hc, H1 in Hk; discriminate.
Qed.

Lemma removeAll_bold_free s : includes bold (removeAll bold s) = false.
Proof. apply (removeAll_bold_free_upto (List.length s)); lia. Qed.

(** X17.  The text [cleanText] displays holds no Markdown bold marker (two
    asterisks in a row) and no white space at either end, whatever the
    input; and on an input holding none of the three artifacts it is the
    input trimmed. *)
Theorem cleanText_output text :
  includes bold (cleanText text) = false /\
  trim (cleanText text) = cleanText text /\
  (forall t, text = Some t ->
     includes carriageArtifact t = false ->
     includes escapedNewline t = false ->
     includes bold t = false ->
     cleanText text = trim t).
Proof.
  destruct text as [[|c t]|].
  - split; [reflexivity|]. split; [reflexivity|].
    intros t0 H _ _ _. injection H as <-. reflexivity.
  - unfold cleanText. split; [|split].
    + destruct (includes bold (trim (removeAll bold
                  (replaceAll escapedNewline newline
                     (removeAll carriageArtifact (c :: t)))))) eqn:E; [|reflexivity].
      apply trim_includes in E. rewrite removeAll_bold_free in E. discriminate.
    + apply trim_idem.
    + intros t0 H H1 H2 H3. injection H as <-.
      rewrite (removeAll_absent _ _ H1), (replaceAll_absent _ _ _ H2),
        (removeAll_absent _ _ H3). reflexivity.
  - split; [reflexivity|]. split; [reflexivity|]. intros t0 H; discriminate.
Qed.

(** An answer with the three artifacts, cleaned. *)
Lemma cleanText_sample :
  cleanText (Some (js " **Aspirin**_x000D_" ++ [92%N; 110%N] ++ js "acid "))
    = js "Aspirin" ++ [10%N] ++ js "acid".
Proof. reflexivity. Qed.

End CleaningMore.

(** ** More on the comparison engine *)

Section CompareMore.
Import ComparisonEngine App.

(** [handleCompare] on two non-blank inputs, path by path. *)
Lemma handleCompare_paths env s :
  blank (mol1 s) = false -> blank (mol2 s) = false ->
  let V := ValidationRequest (mol1 s) (mol2 s) in
  let C := ComparisonRequest (mol1 s) (mol2 s) in
  handleCompare env (s, []) =
    match validateComparisonInputs env (mol1 s) (mol2 s) with
    | Throws e =>
        (Returns tt, (ended s (Some (failureMessage e)) None, [V; ConsoleError e]))
    | Returns v =>
        match readFlags v with
        | Throws e =>
            (Returns tt, (ended s (Some (failureMessage e)) None, [V; ConsoleError e]))
        | Returns (f1, f2) =>
            if negb f1 || negb f2 then
              (Returns tt,
               (ended s (Some (invalidMessage (mol1 s) (mol2 s) f1 f2)) None, [V]))
            else
              match compareMoleculesText env (mol1 s) (mol2 s) with
              | Throws e =>
                  (Returns tt,
                   (ended s (Some (failureMessage e)) None, [V; C; ConsoleError e]))
              | Returns r =>
                  match getProp r (js "molecule1"), getProp r (js "molecule2") with
                  | Returns t1, Returns t2 =>
                      (Returns tt,
                       (ended s None (Some r),
                        [V; C;
                         AnalysisComplete
                           (mkAnalysisResult (now_id env) (js "COMPARISON")
                              (now_timestamp env) (mkTitle t1 t2) r)]))
                  | Throws e, _ =>
                      (Returns tt,
                       (ended s (Some (failureMessage e)) (Some r),
                        [V; C; ConsoleError e]))
                  | Returns _, Throws e =>
                      (Returns tt,
                       (ended s (Some (failureMessage e)) (Some r),
                        [V; C; ConsoleError e]))
                  end
              end
        end
    end.
Proof.
  intros H1 H2 V C. unfold handleCompare; simpl. rewrite H1, H2; simpl.
  unfold tryFinally, tryCatch, bindM, setLoading, setError, setData, modify,
    emit, lift, ended; simpl.
  destruct (validateComparisonInputs env (mol1 s) (mol2 s)) as [v|e]; simpl;
    [|reflexivity].
  destruct (readFlags v) as [[f1 f2]|e]; simpl; [|reflexivity].
  destruct f1, f2; simpl; try reflexivity.
  destruct (compareMoleculesText env (mol1 s) (mol2 s)) as [r|e]; simpl;
    [|reflexivity].
  destruct (getProp r (js "molecule1")); simpl; [|reflexivity].
  destruct (getProp r (js "molecule2")); simpl; reflexivity.
Qed.




(** X19.  When the validation answer rejects the first input, the error says
    so: it names the first input when the second is accepted, and says that
    both inputs are not recognized when the second is rejected too.  In both
    cases the validation request is the only call and no data is kept. *)
Theorem handleCompare_first_input_invalid env s validation f2
  (H1 : blank (mol1 s) = false)
  (H2 : blank (mol2 s) = false)
  (Hanswer : validateComparisonInputs env (mol1 s) (mol2 s) = Returns validation)
  (Hflags : readFlags validation = Returns (false, f2)) :
  handleCompare env (s, [])
    = (Returns tt,
       (mkState (mol1 s) (mol2 s) false
          (Some (js "Invalid Input: " ++
                 (if f2
                  then dquote ++ mol1 s ++ dquote
                       ++ js " is not a recognized molecule or valid structure format."
                  else js "Both inputs are not recognized as valid chemical entities.")))
          None,
        [ValidationRequest (mol1 s) (mol2 s)])).
Proof.
  rewrite (handleCompare_paths env s H1 H2), Hanswer, Hflags.
  destruct f2; reflexivity.
Qed.

Lemma handleCompare_first_input_invalid_witness :
  blank (mol1 Samples.filledForm) = false /\
  blank (mol2 Samples.filledForm) = false /\
  readFlags empty_object = Returns (false, false) /\
  error (fst (snd (handleCompare
                     (mkEnv (fun _ _ => Returns empty_object)
                            (fun _ _ => Returns empty_object) 0 0)
                     (Samples.filledForm, []))))
    = Some (js "Invalid Input: Both inputs are not recognized as valid chemical entities.").
Proof.
  split; [reflexivity|]. split; [reflexivity|]. split; [reflexivity|].
  rewrite (handleCompare_first_input_invalid
             (mkEnv (fun _ _ => Returns empty_object)
                    (fun _ _ => Returns empty_object) 0 0)
             Samples.filledForm empty_object false
             eq_refl eq_refl eq_refl eq_refl).
  reflexivity.
Defined.

(** X20.  When the validation request or the comparison request fails, the
    error shown is the message of the failure, or [Analysis failed. Please
    check your connection.] when that message is empty; the failure is logged
    once, no data is kept, and after a failed validation no comparison is
    requested. *)
Theorem handleCompare_request_failure env s e
  (H1 : blank (mol1 s) = false)
  (H2 : blank (mol2 s) = false) :
  let shown := match err_message e with
               | [] => js "Analysis failed. Please check your connection."
               | _ :: _ => err_message e
               end in
  (validateComparisonInputs env (mol1 s) (mol2 s) = Throws e ->
   handleCompare env (s, [])
     = (Returns tt,
        (mkState (mol1 s) (mol2 s) false (Some shown) None,
         [ValidationRequest (mol1 s) (mol2 s); ConsoleError e]))) /\
  (forall v,
   validateComparisonInputs env (mol1 s) (mol2 s) = Returns v ->
   readFlags v = Returns (true, true) ->
   compareMoleculesText env (mol1 s) (mol2 s) = Throws e ->
   handleCompare env (s, [])
     = (Returns tt,
        (mkState (mol1 s) (mol2 s) false (Some shown) None,
         [ValidationRequest (mol1 s) (mol2 s);
          ComparisonRequest (mol1 s) (mol2 s); ConsoleError e]))).
Proof.
  intro shown. split.
  - intro Hv. rewrite (handleCompare_paths env s H1 H2), Hv. reflexivity.
  - intros v Hv Hf Hc.
    rewrite (handleCompare_paths env s H1 H2), Hv, Hf, Hc. reflexivity.
Qed.

Lemma handleCompare_request_failure_witness :
  blank (mol1 Samples.filledForm) = false /\
  blank (mol2 Samples.filledForm) = false /\
  error (fst (snd (handleCompare
                     (mkEnv (fun _ _ => Throws (mkError (js "Error") []))
                            (fun _ _ => Returns empty_object) 0 0)
                     (Samples.filledForm, []))))
    = Some (js "Analysis failed. Please check your connection.").
Proof.
  split; [reflexivity|]. split; [reflexivity|].
  rewrite (proj1 (handleCompare_request_failure
                    (mkEnv (fun _ _ => Throws (mkError (js "Error") []))
                           (fun _ _ => Returns empty_object) 0 0)
                    Samples.filledForm (mkError (js "Error") [])
                    eq_refl eq_refl) eq_refl).
  reflexivity.
Defined.

(** X21.  A validation answer that cannot be parsed rejects both inputs:
    when the text of the validation response is no JSON, [parseJSON] gives
    the empty object, both flags read as falsy, and the user is told that
    both inputs are not recognized; no comparison is requested. *)
Theorem unparsable_validation_rejects_both JSON_parse env s text e
  (H1 : blank (mol1 s) = false)
  (H2 : blank (mol2 s) = false)
  (Hservice : validateComparisonInputs env (mol1 s) (mol2 s)
              = ServiceCalls.parsedAnswer JSON_parse (Returns text))
  (Hbad : JSON_parse (GeminiService.cleaned (ServiceCalls.responseText text))
          = Throws e) :
  handleCompare env (s, [])
    = (Returns tt,
       (mkState (mol1 s) (mol2 s) false
          (Some (js "Invalid Input: Both inputs are not recognized as valid chemical entities."))
          None,
        [ValidationRequest (mol1 s) (mol2 s)])).
Proof.
  rewrite (handleCompare_paths env s H1 H2), Hservice.
  unfold ServiceCalls.parsedAnswer, GeminiService.parseJSON; simpl JS.bind.
  rewrite Hbad. reflexivity.
Qed.

Lemma unparsable_validation_rejects_both_witness :
  blank (mol1 Samples.filledForm) = false /\
  blank (mol2 Samples.filledForm) = false /\
  Samples.toyParse (GeminiService.cleaned
                      (ServiceCalls.responseText (Some (js "Sorry, I cannot."))))
    = Throws (mkError (js "SyntaxError") (js "Unexpected token")) /\
  snd (snd (handleCompare
              (mkEnv (fun _ _ => ServiceCalls.parsedAnswer Samples.toyParse
                                   (Returns (Some (js "Sorry, I cannot."))))
                     (fun _ _ => Returns empty_object) 0 0)
              (Samples.filledForm, [])))
    = [ValidationRequest Samples.aspirin Samples.unknownName].
Proof.
  split; [reflexivity|]. split; [reflexivity|]. split; [reflexivity|].
  rewrite (unparsable_validation_rejects_both Samples.toyParse
             (mkEnv (fun _ _ => ServiceCalls.parsedAnswer Samples.toyParse
                                  (Returns (Some (js "Sorry, I cannot."))))
                    (fun _ _ => Returns empty_object) 0 0)
             Samples.filledForm (Some (js "Sorry, I cannot."))
             (mkError (js "SyntaxError") (js "Unexpected token"))
             eq_refl eq_refl eq_refl eq_refl).
  reflexivity.
Defined.

(** X22.  The history of [App] grows by one entry, put first, exactly when a
    comparison ends without error, and that entry carries the data kept by
    the comparison view; a comparison that ends with an error leaves the
    history as it was. *)
Theorem history_grows_on_success_only env s h
  (H1 : blank (mol1 s) = false)
  (H2 : blank (mol2 s) = false) :
  let w := snd (handleCompare env (s, [])) in
  (error (fst w) = None ->
     exists r, App.deliver (snd w) h = r :: h /\ data (fst w) = Some (ar_data r)) /\
  (error (fst w) <> None -> App.deliver (snd w) h = h).
Proof.
  rewrite (handleCompare_paths env s H1 H2).
  destruct (validateComparisonInputs env (mol1 s) (mol2 s)) as [v|e];
    [|split; [discriminate | reflexivity]].
  destruct (readFlags v) as [[f1 f2]|e];
    [|split; [discriminate | reflexivity]].
  destruct (negb f1 || negb f2); [split; [discriminate | reflexivity]|].
  destruct (compareMoleculesText env (mol1 s) (mol2 s)) as [r|e];
    [|split; [discriminate | reflexivity]].
  destruct (getProp r (js "molecule1")) as [t1|e];
    [|split; [discriminate | reflexivity]].
  destruct (getProp r (js "molecule2")) as [t2|e];
    [|split; [discriminate | reflexivity]].
  split.
  - intros _. eexists; split; reflexivity.
  - intro H. exfalso. apply H. reflexivity.
Qed.

Lemma history_grows_on_success_only_witness :
  blank (mol1 Samples.filledForm) = false /\
  blank (mol2 Samples.filledForm) = false /\
  App.deliver
    (snd (snd (handleCompare Samples.rejectingSecond (Samples.filledForm, [])))) []
    = [].
Proof.
  split; [reflexivity|]. split; [reflexivity|].
  apply (proj2 (history_grows_on_success_only Samples.rejectingSecond
                  Samples.filledForm [] eq_refl eq_refl)).
  discriminate.
Defined.

End CompareMore.

(** ** The conversion of an uploaded file *)

Section FilePartProps.
Import FilePart.

Lemma existsb_str_eqb_In x l : existsb (str_eqb x) l = true -> In x l.
Proof.
  intro H. apply existsb_exists in H as [y [Hin He]].
  apply str_eqb_eq in He. subst y. exact Hin.
Qed.

Lemma settled_stays ft events st0 :
  fold_left (onReaderEvent ft) events (Some st0) = Some st0.
Proof.
  induction events as [|e events IH]; [reflexivity|].
  simpl. replace (onReaderEvent ft (Some st0) e) with (Some st0); [exact IH|].
  destruct e as [[[|c r]|]|]; reflexivity.
Qed.

Lemma readDirect_resolved ft events p :
  readDirect ft events = Some (Resolved p) -> mimeType p = ft.
Proof.
  unfold readDirect. induction events as [|e events IH]; [discriminate|].
  simpl. destruct e as [[[|c r]|]|]; simpl; rewrite settled_stays; intro H;
    try discriminate.
  injection H as <-. reflexivity.
Qed.

(** X23.  A part that [fileToGenerativePart] resolves with always carries a
    supported MIME type, never [image/avif]: the type of the file itself when
    it is read directly, [image/jpeg] when it went through the conversion. *)
Theorem resolved_part_has_supported_type ft events img p
  (Hres : fst (fileToGenerativePart ft events img) = Some (Resolved p)) :
  In (mimeType p) SUPPORTED_MIME_TYPES /\
  mimeType p <> js "image/avif" /\
  (isDirect ft = true -> mimeType p = ft) /\
  (isDirect ft = false -> mimeType p = js "image/jpeg").
Proof.
  unfold fileToGenerativePart in Hres.
  destruct (isDirect ft) eqn:Ed; simpl in Hres.
  - apply readDirect_resolved in Hres. rewrite Hres.
    unfold isDirect in Ed. apply andb_true_iff in Ed as [Hin Hav].
    split; [apply existsb_str_eqb_In, Hin|].
    split; [|split; [reflexivity | discriminate]].
    intro He. rewrite He in Hav. discriminate.
  - assert (Hm : mimeType p = js "image/jpeg").
    { destruct img as [[|] [u|e1] [url|e2] |]; simpl in Hres;
        try discriminate; injection Hres as <-; reflexivity. }
    rewrite Hm. split; [right; left; reflexivity|].
    split; [discriminate|]. split; [discriminate | reflexivity].
Qed.

Lemma resolved_part_has_supported_type_witness :
  fst (fileToGenerativePart (js "image/bmp") []
         (Loaded true (Returns tt) (Returns (js "data:image/jpeg;base64,QUJD"))))
    = Some (Resolved (mkPart (Some (js "QUJD")) (js "image/jpeg"))) /\
  In (js "image/jpeg") SUPPORTED_MIME_TYPES.
Proof.
  assert (H : fst (fileToGenerativePart (js "image/bmp") []
                (Loaded true (Returns tt) (Returns (js "data:image/jpeg;base64,QUJD"))))
              = Some (Resolved (mkPart (Some (js "QUJD")) (js "image/jpeg"))))
    by reflexivity.
  split; [exact H|].
  exact (proj1 (resolved_part_has_supported_type (js "image/bmp") []
                  (Loaded true (Returns tt) (Returns (js "data:image/jpeg;base64,QUJD")))
                  (mkPart (Some (js "QUJD")) (js "image/jpeg")) H)).
Defined.

(** X24.  The object URL made for a conversion is always released: on
    every way the conversion can end (success, missing canvas context, a
    thrown [drawImage] or [toDataURL], an image that fails to load) exactly
    one URL is created and it is revoked last; a file read directly creates
    none. *)
Theorem object_url_is_always_revoked ft events img :
  let effects := snd (fileToGenerativePart ft events img) in
  List.length (filter isCreate effects) = List.length (filter isRevoke effects) /\
  (isDirect ft = true -> effects = []) /\
  (isDirect ft = false ->
     exists msg, effects = [ConsoleLog msg; CreateObjectURL; RevokeObjectURL] /\
                 exists st, fst (fileToGenerativePart ft events img) = Some st).
Proof.
  unfold fileToGenerativePart.
  destruct (isDirect ft); simpl.
  - split; [reflexivity|]. split; [reflexivity | discriminate].
  - destruct img as [[|] [u|e1] [url|e2] |]; simpl;
      (split; [reflexivity|]; split; [discriminate|]; intros _;
       eexists; split; [reflexivity | eexists; reflexivity]).
Qed.

Lemma splitComma_no_comma s :
  forallb (fun c => negb (N.eqb c 44)) s = true -> splitComma s = [s].
Proof.
  induction s as [|c s IH]; intro H; [reflexivity|].
  simpl in H. apply andb_true_iff in H as [Hc Hs].
  simpl. destruct (N.eqb c 44); [discriminate|].
  rewrite (IH Hs). reflexivity.
Qed.

Lemma splitComma_first h rest :
  forallb (fun c => negb (N.eqb c 44)) h = true ->
  splitComma (h ++ 44%N :: rest) = h :: splitComma rest.
Proof.
  induction h as [|c h IH]; intro H; [reflexivity|].
  simpl in H. apply andb_true_iff in H as [Hc Hs].
  simpl. destruct (N.eqb c 44); [discriminate|].
  rewrite (IH Hs). reflexivity.
Qed.

Lemma onReaderEvent_loaded ft u :
  u <> [] ->
  onReaderEvent ft None (OnLoadEnd (Some u))
    = Some (Resolved (mkPart (secondField u) ft)).
Proof. destruct u; [congruence | reflexivity]. Qed.

(** X25.  From a data URL, that is a header, a comma and a payload with no
    comma in the header nor in the payload, the part resolved on [loadend]
    carries exactly the payload and the type of the file; whatever the reader
    fires afterwards changes nothing, the promise being settled. *)
Theorem data_url_payload_is_extracted ft header payload later
  (Hheader : forallb (fun c => negb (N.eqb c 44)) header = true)
  (Hpayload : forallb (fun c => negb (N.eqb c 44)) payload = true) :
  secondField (header ++ 44%N :: payload) = Some payload /\
  readDirect ft (OnLoadEnd (Some (header ++ 44%N :: payload)) :: later)
    = Some (Resolved (mkPart (Some payload) ft)).
Proof.
  assert (Hs : secondField (header ++ 44%N :: payload) = Some payload).
  { unfold secondField.
    rewrite (splitComma_first header payload Hheader),
      (splitComma_no_comma payload Hpayload). reflexivity. }
  split; [exact Hs|].
  unfold readDirect. cbn [fold_left].
  assert (Hev : onReaderEvent ft None (OnLoadEnd (Some (header ++ 44%N :: payload)))
                = Some (Resolved (mkPart (Some payload) ft))).
  { rewrite onReaderEvent_loaded by (destruct header; discriminate).
    rewrite Hs. reflexivity. }
  rewrite Hev. apply settled_stays.
Qed.

Lemma data_url_payload_is_extracted_witness :
  forallb (fun c => negb (N.eqb c 44)) (js "data:image/png;base64") = true /\
  forallb (fun c => negb (N.eqb c 44)) (js "QUJD") = true /\
  readDirect (js "image/png")
    [OnLoadEnd (Some (js "data:image/png;base64" ++ 44%N :: js "QUJD")); OnError]
    = Some (Resolved (mkPart (Some (js "QUJD")) (js "image/png"))).
Proof.
  split; [reflexivity|]. split; [reflexivity|].
  exact (proj2 (data_url_payload_is_extracted (js "image/png")
                  (js "data:image/png;base64") (js "QUJD") [OnError]
                  eq_refl eq_refl)).
Defined.

End FilePartProps.

(** ** The loading messages *)

Section LoadingSteps.
Import LoadingTicker.

Lemma advance_bound count prev :
  (prev < count)%nat -> (advance count prev < count)%nat.
Proof.
  intro H. unfold advance.
  destruct (Z.of_nat prev <? Z.of_nat count - 1)%Z eqn:E; [|exact H].
  apply Z.ltb_lt in E. lia.
Qed.

Lemma fold_step_bound count es : forall st,
  (st < count)%nat -> (fold_left (step count) es st < count)%nat.
Proof.
  induction es as [|e es IH]; intros st H; [exact H|].
  simpl. apply IH. destruct e; simpl; [lia | apply advance_bound, H].
Qed.

Lemma ticks_from count n : forall st,
  (st < count)%nat ->
  fold_left (step count) (repeat Tick n) st = Nat.min (st + n) (count - 1).
Proof.
  induction n as [|n IH]; intros st H.
  - simpl. lia.
  - simpl. rewrite IH by (apply advance_bound, H).
    unfold advance.
    destruct (Z.of_nat st <? Z.of_nat count - 1)%Z eqn:E.
    + apply Z.ltb_lt in E. lia.
    + apply Z.ltb_ge in E. lia.
Qed.

(** X26.  The loading step always indexes a message: for a non-empty list
    of messages, after any sequence of loading starts and interval ticks
    [loadingMessages[loadingStep]] is defined; and [n] ticks after a start the
    step is [n], capped at the index of the last message. *)
Theorem loading_step_indexes_a_message (messages : list jsstring) es n
  (Hne : messages <> []) :
  (exists m, nth_error messages (run (List.length messages) es) = Some m) /\
  run (List.length messages) (es ++ LoadingStarts :: repeat Tick n)
    = Nat.min n (List.length messages - 1).
Proof.
  assert (Hpos : (0 < List.length messages)%nat)
    by (destruct messages; [congruence | simpl; lia]).
  split.
  - assert (Hb : (run (List.length messages) es < List.length messages)%nat)
      by (apply fold_step_bound; exact Hpos).
    destruct (nth_error messages (run (List.length messages) es)) eqn:E.
    + eexists; reflexivity.
    + apply nth_error_None in E. lia.
  - unfold run. rewrite fold_left_app. cbn [fold_left step].
    rewrite ticks_from by exact Hpos. reflexivity.
Qed.

Lemma loading_step_indexes_a_message_witness :
  imageMessages <> [] /\
  run (List.length imageMessages) ([Tick] ++ LoadingStarts :: repeat Tick 9) = 5%nat /\
  textMessages <> [].
Proof.
  assert (H : imageMessages <> []) by discriminate.
  split; [exact H|]. split; [|discriminate].
  rewrite (proj2 (loading_step_indexes_a_message imageMessages [Tick] 9 H)).
  reflexivity.
Defined.

End LoadingSteps.

(** ** The symbols of a fetched record and their colours *)

Section FetchedSymbols.
Import ViewerExtra.

(** X27.  Every symbol the parsing of a PubChem record can produce, the
    fallback [X] included, is given a colour string by the viewer: the entry
    of the table when the symbol is one of its keys, the neutral colour
    otherwise (never an inherited member, never nothing). *)
Theorem fetched_symbols_have_a_colour (n : Z) :
  elementSymbol n <> [] /\
  getAtomColor (elementSymbol n)
    = Some (Str (match assoc (elementSymbol n) ATOM_COLORS with
                 | Some c => c
                 | None => default_color
                 end)).
Proof.
  unfold elementSymbol, ATOMIC_NUMBER_MAP, lookupZ.
  repeat match goal with
         | |- context [Z.eqb n ?k] => destruct (Z.eqb n k); [split; [discriminate | reflexivity]|]
         end.
  split; [discriminate | reflexivity].
Qed.

End FetchedSymbols.
